(** * The hybrid recommender of [backend/app/services/recommender.py]

    A shallow embedding of [HybridRecommender] and the properties its
    specification states about it, followed by further properties of the
    same code, of the function of the module and of the request schema that
    feeds it.

    Conventions of the embedding.
    - Python [str] values are [string]s read as ASCII text: [lower] and
      [strip] act on the ASCII letters and the ASCII white space, other
      characters are left as they are.
    - Python [int] is [Z]; [float] and [numpy.float64] are the binary64
      numbers of [PrimFloat], with the IEEE operations of the kernel.
    - A [dict] the caller passes in (the profile) is a [gmap] from keys to
      values; a catalog row, whose columns are fixed by the table, is a
      record, with an optional field where the code reads a column with
      [dict.get] and a default.
    - A Python [set] of strings is a [gset].
    - A raised exception is the [Err] branch of [result]; statements are
      sequenced with the bind of that monad, in the order of the source.
    - scikit-learn is outside the repository: the TF-IDF vectors and their
      cosine distances are a parameter, and the neighbour query is modelled
      from its documentation. The scores are [numpy.float64] numbers, on
      which [round(x, 1)] is numpy's [rint(x * 10) / 10]. *)

From Stdlib Require Import ZArith Ascii String List Bool Lia DecimalString.
From Stdlib Require Import Floats Uint63.
From Stdlib Require Import Sorting.Permutation Sorting.Sorted.
From stdpp Require Import base option list gmap strings.

Local Open Scope string_scope.
Local Open Scope list_scope.
Local Open Scope Z_scope.

(** ** Exceptions and the error monad *)

Inductive exn : Type :=
| ValueError (msg : string)
| TypeError (msg : string)
| IndexError (msg : string)
| OverflowError (msg : string).

Inductive result (A : Type) : Type :=
| Ok (a : A)
| Err (e : exn).
Arguments Ok {A} a.
Arguments Err {A} e.

Definition rbind {A B : Type} (m : result A) (k : A -> result B) : result B :=
  match m with
  | Ok a => k a
  | Err e => Err e
  end.

Notation "'do' x <- m ; k" := (rbind m (fun x => k))
  (at level 10, x name, m at level 100, k at level 200).

(** A [for] loop that builds a list, stopping at the first exception. *)
Fixpoint rmapM {A B : Type} (f : A -> result B) (l : list A) : result (list B) :=
  match l with
  | [] => Ok []
  | a :: l' => do b <- f a; do bs <- rmapM f l'; Ok (b :: bs)
  end.

(** ** Python string methods *)

Module PyStr.

Definition is_upper (c : ascii) : bool :=
  ((65 <=? nat_of_ascii c) && (nat_of_ascii c <=? 90))%nat.

Definition lower_char (c : ascii) : ascii :=
  if is_upper c then ascii_of_nat (nat_of_ascii c + 32) else c.

(** [str.lower()] *)
Fixpoint lower (s : string) : string :=
  match s with
  | EmptyString => EmptyString
  | String c s' => String (lower_char c) (lower s')
  end.

(** The ASCII characters for which [str.isspace()] holds. *)
Definition is_space (c : ascii) : bool :=
  let n := nat_of_ascii c in
  ((n =? 32) || ((9 <=? n) && (n <=? 13)) || ((28 <=? n) && (n <=? 31)))%nat.

Fixpoint lstrip (s : string) : string :=
  match s with
  | EmptyString => EmptyString
  | String c s' => if is_space c then lstrip s' else s
  end.

Fixpoint rstrip (s : string) : string :=
  match s with
  | EmptyString => EmptyString
  | String c s' =>
      match rstrip s' with
      | EmptyString => if is_space c then EmptyString else String c EmptyString
      | r => String c r
      end
  end.

(** [str.strip()] *)
Definition strip (s : string) : string := rstrip (lstrip s).

(** [str.split(sep)] for a one-character separator: never the empty list. *)
Fixpoint split (sep : ascii) (s : string) : list string :=
  match s with
  | EmptyString => [EmptyString]
  | String c s' =>
      if Ascii.eqb c sep then EmptyString :: split sep s'
      else match split sep s' with
           | h :: t => String c h :: t
           | [] => [String c EmptyString]
           end
  end.

(** [sep.join(l)] *)
Definition join (sep : string) (l : list string) : string := String.concat sep l.

(** [str(n)] for an [int], as an f-string prints it. *)
Definition of_int (n : Z) : string := NilZero.string_of_int (Z.to_int n).

(** The characters of a string, as iterating over it yields them. *)
Fixpoint chars (s : string) : list string :=
  match s with
  | EmptyString => []
  | String c s' => String c EmptyString :: chars s'
  end.

End PyStr.

(** ** Data model *)

(** A value of the profile dictionary. *)
Inductive value : Type :=
| VInt (n : Z)
| VStr (s : string)
| VList (l : list string).

(** A row of [job_roles]. [demand_score] is read with
    [job_role.get('demand_score', 50)]: [None] is a row without that column. *)
Record job_role : Type := {
  job_title : string;
  skills : string;
  demand_score : option Z;
  suggested_microcredentials : string
}.

(** A row of [nsqf_levels]. *)
Record nsqf_level : Type := {
  level : Z;
  qualification : string;
  example_courses : string
}.

(** A step of a pathway: the dictionary with the keys [step], [title],
    [description], [duration_weeks], [type] and [level]. *)
Record pathway_step : Type := {
  step : string;
  title : string;
  description : string;
  duration_weeks : Z;
  type_ : string;
  step_level : Z
}.

(** ** The pathway builder *)

(** [list.sort(key=...)] is a stable sort. It is modelled by insertion from
    the right: [x], which stood before the elements of [l], passes the
    elements that must come strictly before it and stops at the first that
    need not. [precedes ky kx] says that the key [ky] comes strictly before
    the key [kx]: [<] for an ascending sort, [>] for [reverse=True]. *)
Section StableSort.
Context {A K : Type}.
Variable precedes : K -> K -> bool.
Variable key : A -> K.

Fixpoint stable_insert (x : A) (l : list A) : list A :=
  match l with
  | [] => [x]
  | y :: l' =>
      if precedes (key y) (key x) then y :: stable_insert x l' else x :: l
  end.

Fixpoint stable_sort (l : list A) : list A :=
  match l with
  | [] => []
  | x :: l' => stable_insert x (stable_sort l')
  end.
End StableSort.

Definition _map_to_nsqf_pathway (nsqf_levels : list nsqf_level)
    (current_level target_level : Z) : list nsqf_level :=
  if current_level >=? target_level then []
  else
    let pathway_levels :=
      List.filter (fun l => (current_level <? level l) && (level l <=? target_level))
        nsqf_levels in
    stable_sort Z.ltb level pathway_levels.

(** [l[0]] and [l[-1]] *)
Definition first_of {A : Type} (l : list A) : option A := head l.
Definition last_of {A : Type} (l : list A) : option A := last l.

Definition foundational_step (q : nsqf_level) : pathway_step :=
  {| step := "Foundational";
     title := qualification q;
     description := "Build fundamental knowledge with " +:+ qualification q;
     duration_weeks := 12;
     type_ := "course";
     step_level := level q |}.

Definition core_step (q : nsqf_level) : pathway_step :=
  {| step := "Core";
     title := qualification q;
     description := "Deepen your expertise with " +:+ qualification q;
     duration_weeks := 16;
     type_ := "course";
     step_level := level q |}.

Definition microcredential_step (m : string) (target_level : Z) : pathway_step :=
  {| step := "Micro-credential";
     title := m;
     description := "Specialize with " +:+ m +:+ " certification";
     duration_weeks := 8;
     type_ := "certification";
     step_level := target_level |}.

Definition internship_step (r : job_role) (target_level : Z) : pathway_step :=
  {| step := "On-the-job/Internship";
     title := job_title r +:+ " Internship";
     description := "Gain practical experience as a " +:+ job_title r;
     duration_weeks := 12;
     type_ := "internship";
     step_level := target_level |}.

(** The list of microcredentials the pathway builder splits off the row. *)
Definition microcredentials_of (r : job_role) : list string :=
  List.map PyStr.strip (PyStr.split "," (suggested_microcredentials r)).

Definition _create_learning_pathway (nsqf_levels : list nsqf_level)
    (r : job_role) (current_level : Z) : list pathway_step :=
  let target_level := 7 in
  let nsqf_pathway := _map_to_nsqf_pathway nsqf_levels current_level target_level in
  let microcredentials := microcredentials_of r in
  let pathway := [] in
  (* Step 1: Foundational *)
  let pathway :=
    match first_of nsqf_pathway with
    | Some q => pathway ++ [foundational_step q]
    | None => pathway
    end in
  (* Step 2: Core *)
  let pathway :=
    if (1 <? length nsqf_pathway)%nat then
      match last_of nsqf_pathway with
      | Some q => pathway ++ [core_step q]
      | None => pathway
      end
    else pathway in
  (* Step 3: Micro-credential *)
  let pathway :=
    match first_of microcredentials with
    | Some m => pathway ++ [microcredential_step m target_level]
    | None => pathway
    end in
  (* Step 4: On-the-job/Internship *)
  pathway ++ [internship_step r target_level].

(** ** Numbers *)

Set Warnings "-inexact-float".

Module PyNum.

(** [float(n)] for an [int]: the nearest binary64 number. *)
Definition of_int (n : Z) : float := SF2Prim (binary_normalize prec emax n 0 false).

(** [int(x)] for a float: truncation towards zero; NaN and the infinities
    raise. *)
Definition to_int (x : float) : result Z :=
  match Prim2SF x with
  | S754_nan => Err (ValueError "cannot convert float NaN to integer")
  | S754_infinity _ => Err (OverflowError "cannot convert float infinity to integer")
  | S754_zero _ => Ok 0
  | S754_finite s m e =>
      let a := Z.shiftl (Z.pos m) e in
      Ok (if s then - a else a)
  end.

(** [a / b] on two [int]s, true division. The quotient of the two
    conversions is the correctly rounded quotient as long as both integers
    are below 2^53 in magnitude, which the catalog's scores are. *)
Definition true_div (a b : Z) : float := (of_int a / of_int b)%float.

(** [numpy.rint]: the nearest integer, ties to the even one. *)
Definition rint (x : float) : float :=
  match Prim2SF x with
  | S754_finite s m e =>
      if 0 <=? e then x
      else
        let q := Z.shiftr (Z.pos m) (- e) in
        let r := Z.pos m - Z.shiftl q (- e) in
        let half := Z.shiftl 1 (- e - 1) in
        let n := if r <? half then q
                 else if half <? r then q + 1
                 else if Z.even q then q else q + 1 in
        if n =? 0 then (if s then neg_zero else zero)
        else if s then (- of_int n)%float else of_int n
  | _ => x
  end.

(** [round(x, 1)] on a [numpy.float64], which is what the scores are: numpy
    rounds to [d] decimals by [rint(x * 10**d) / 10**d]. *)
Definition round1 (x : float) : float := (rint (x * 10) / 10)%float.

End PyNum.

(** ** The engine *)

(** The state of a [HybridRecommender] after [__init__]: the two tables.
    The fitted vectorizer, the matrix and the neighbour index are functions
    of [job_roles] (see [skills_data] and [kneighbors] below). *)
Record engine : Type := {
  job_roles : list job_role;
  nsqf_levels : list nsqf_level
}.

(** A recommendation and the dictionary [compute_recommendations] returns. *)
Record recommendation : Type := {
  rec_job_title : string;
  match_score : float;
  pathway : list pathway_step;
  explanation : string
}.

Record profile_summary : Type := {
  education_level : value;
  skills_count : Z;
  learning_pace : value
}.

Record recommendation_set : Type := {
  recommendations : list recommendation;
  profile : profile_summary
}.

(** [profile.get(k, default)] *)
Definition dict_get (profile : gmap string value) (k : string) (default : value) : value :=
  match profile !! k with
  | Some v => v
  | None => default
  end.

(** [_train_model], the part of [__init__] that can refuse the tables. *)
Definition _train_model (roles : list job_role) (levels : list nsqf_level) : result engine :=
  match roles with
  | [] => Err (ValueError "No job roles found in the database")
  | _ => Ok {| job_roles := roles; nsqf_levels := levels |}
  end.

(** The corpus the vectorizer is fitted on. *)
Definition skills_data (e : engine) : list string :=
  List.map (fun role => PyStr.lower (skills role)) (job_roles e).

Definition _normalize_skills (skills : list string) : list string :=
  List.map (fun skill => PyStr.strip (PyStr.lower skill)) skills.

(** What the comprehension of [_normalize_skills] iterates over. *)
Definition iter_strings (v : value) : result (list string) :=
  match v with
  | VList l => Ok l
  | VStr s => Ok (PyStr.chars s)
  | VInt _ => Err (TypeError "'int' object is not iterable")
  end.

(** The comparisons of [_map_to_nsqf_pathway] need a number. *)
Definition as_level (v : value) : result Z :=
  match v with
  | VInt n => Ok n
  | VStr _ => Err (TypeError "'>=' not supported between instances of 'str' and 'int'")
  | VList _ => Err (TypeError "'>=' not supported between instances of 'list' and 'int'")
  end.

(** [{'slow': 1.3, 'normal': 1.0, 'fast': 0.7}.get(pace, 1.0)] *)
Definition pace_multiplier (pace : value) : result float :=
  match pace with
  | VStr s =>
      Ok (if String.eqb s "slow" then 1.3
          else if String.eqb s "normal" then 1.0
          else if String.eqb s "fast" then 0.7
          else 1.0)%float
  | VInt _ => Ok 1.0%float
  | VList _ => Err (TypeError "unhashable type: 'list'")
  end.

(** [step['duration_weeks'] = int(step['duration_weeks'] * pace_multiplier)] *)
Definition scale_step (m : float) (s : pathway_step) : result pathway_step :=
  do d <- PyNum.to_int (PyNum.of_int (duration_weeks s) * m)%float;
  Ok {| step := step s; title := title s; description := description s;
        duration_weeks := d; type_ := type_ s; step_level := step_level s |}.

Definition _generate_explanation (r : job_role) (skill_overlap : float)
    (demand_score : Z) : result string :=
  do pct <- PyNum.to_int (skill_overlap * 100)%float;
  let base := "This role matches " +:+ PyStr.of_int pct +:+ "% of your existing skills " in
  let base := base +:+ "and has a high demand score of " +:+ PyStr.of_int demand_score +:+ "/100. " in
  let base := base +:+ "The role typically requires skills in: " +:+ skills r +:+ "." in
  Ok base.

(** The combined score of a role at a cosine distance, before rounding. *)
Definition combined_score (skill_overlap : float) (demand_score : Z) : float :=
  ((skill_overlap * 0.6) + (PyNum.true_div demand_score 100 * 0.4))%float.

Section Recommender.

(** scikit-learn is outside the repository. [cosine_distance corpus q i] is
    the cosine distance between the TF-IDF vector of the query text [q] and
    row [i] of the matrix fitted on [corpus]: what
    [TfidfVectorizer(lowercase=True, stop_words='english')] and the
    [cosine] metric of [NearestNeighbors] compute. *)
Variable cosine_distance : list string -> string -> nat -> float.

(** [nn_model.kneighbors(user_vector, n_neighbors)]: scikit-learn refuses
    more neighbours than fitted samples; otherwise the [n_neighbors] rows
    nearest to the query, by ascending distance, rows at the same distance
    in catalog order. *)
Definition kneighbors (e : engine) (query : string) (n_neighbors : nat)
    : result (list (nat * float)) :=
  let n_samples_fit := length (job_roles e) in
  if (n_samples_fit <? n_neighbors)%nat then
    Err (ValueError "Expected n_neighbors <= n_samples_fit")
  else
    let dists := List.map (fun i => (i, cosine_distance (skills_data e) query i))
                   (seq 0 n_samples_fit) in
    Ok (firstn n_neighbors (stable_sort PrimFloat.ltb snd dists)).

(** The body of the loop over the neighbours. *)
Definition recommend_one (e : engine) (profile : gmap string value)
    (neighbor : nat * float) : result recommendation :=
  let '(idx, distance) := neighbor in
  do job_role <- match nth_error (job_roles e) idx with
                 | Some r => Ok r
                 | None => Err (IndexError "list index out of range")
                 end;
  (* Calculate scores *)
  let skill_overlap := (1 - distance)%float in
  let demand_score := default 50 (demand_score job_role) in
  let combined_score := combined_score skill_overlap demand_score in
  (* Create learning pathway *)
  do current_level <- as_level (dict_get profile "education_level" (VInt 1));
  let pathway := _create_learning_pathway (nsqf_levels e) job_role current_level in
  (* Adjust duration based on learning pace *)
  do pace_multiplier <- pace_multiplier (dict_get profile "learning_pace" (VStr "normal"));
  do pathway <- rmapM (scale_step pace_multiplier) pathway;
  (* Generate explanation *)
  do explanation <- _generate_explanation job_role skill_overlap demand_score;
  Ok {| rec_job_title := job_title job_role;
        match_score := PyNum.round1 (combined_score * 100)%float;
        pathway := pathway;
        explanation := explanation |}.

(** The recommendations in the order of the neighbours, before the sort. *)
Definition scored_neighbors (e : engine) (profile : gmap string value)
    (neighbors : list (nat * float)) : result (list recommendation) :=
  rmapM (recommend_one e profile) neighbors.

(** [recommendations.sort(key=lambda x: x['match_score'], reverse=True)] *)
Definition sort_recommendations (l : list recommendation) : list recommendation :=
  stable_sort (fun ky kx => PrimFloat.ltb kx ky) match_score l.

Definition compute_recommendations (e : engine) (profile : gmap string value)
    : result recommendation_set :=
  (* Normalize inputs *)
  do prior_skills <- iter_strings (dict_get profile "prior_skills" (VList []));
  let normalized_skills := _normalize_skills prior_skills in
  match normalized_skills with
  | [] => Err (ValueError "No skills provided in the profile")
  | _ =>
      (* Prepare user skills for prediction *)
      let user_skills_text := PyStr.join ", " normalized_skills in
      (* Find nearest job roles *)
      do neighbors <- kneighbors e user_skills_text 3;
      do recommendations <- scored_neighbors e profile neighbors;
      (* Sort recommendations by match score (descending) *)
      let recommendations := sort_recommendations recommendations in
      Ok {| recommendations := recommendations;
            profile :=
              {| education_level := dict_get profile "education_level" (VInt 1);
                 skills_count := Z.of_nat (length normalized_skills);
                 learning_pace := dict_get profile "learning_pace" (VStr "normal") |} |}
  end.

End Recommender.

(** ** The specification's wording of the pathway levels *)

(** The qualification levels strictly above [current_level] and at most
    [target_level], ascending by level. *)
Definition spec_pathway_levels (nsqf_levels : list nsqf_level)
    (current_level target_level : Z) : list nsqf_level :=
  stable_sort Z.ltb level
    (List.filter (fun l => (current_level <? level l) && (level l <=? target_level))
       nsqf_levels).

(** The step of a pathway with a given name, if there is one. *)
Definition find_step (name : string) (p : list pathway_step) : option pathway_step :=
  List.find (fun s => String.eqb (step s) name) p.

(** The order in which the builder may emit steps. *)
Definition step_order : list string :=
  ["Foundational"; "Core"; "Micro-credential"; "On-the-job/Internship"].

(** ** The catalog and the profile of [tests/conftest.py] *)

Definition data_analyst : job_role :=
  {| job_title := "Data Analyst";
     skills := "python, data analysis, statistics, sql";
     demand_score := Some 90;
     suggested_microcredentials := "Data Analysis with Python, SQL for Data Science" |}.

Definition data_scientist : job_role :=
  {| job_title := "Data Scientist";
     skills := "python, machine learning, statistics, data visualization";
     demand_score := Some 95;
     suggested_microcredentials := "Machine Learning, Data Visualization" |}.

Definition it_support : job_role :=
  {| job_title := "IT Support";
     skills := "troubleshooting, networking, customer service";
     demand_score := Some 80;
     suggested_microcredentials := "CompTIA A+, ITIL" |}.

Definition test_levels : list nsqf_level :=
  [ {| level := 4; qualification := "Diploma in Data Science";
       example_courses := "Python Basics, Statistics" |};
    {| level := 5; qualification := "Advanced Diploma in Data Science";
       example_courses := "Machine Learning, Data Visualization" |};
    {| level := 6; qualification := "Bachelor in Data Science";
       example_courses := "Deep Learning, Big Data" |} ].

Definition test_engine : engine :=
  {| job_roles := [data_analyst; data_scientist; it_support];
     nsqf_levels := test_levels |}.

(** The same catalog cut down to two roles. *)
Definition small_engine : engine :=
  {| job_roles := [data_analyst; data_scientist];
     nsqf_levels := test_levels |}.

Definition sample_profile : gmap string value :=
  <[ "education_level" := VInt 4 ]>
  (<[ "prior_skills" := VList ["python"; "data analysis"; "statistics"] ]>
  (<[ "aspirations" := VStr "I want to become a data scientist" ]>
  (<[ "learning_pace" := VStr "normal" ]> ∅))).

(** A table of distances to run the examples with: row 0 at 0.25, row 1 at
    0.5, every other row at 1 (no term in common). *)
Definition table_distance (_ : list string) (_ : string) (i : nat) : float :=
  match i with
  | O => 0.25%float
  | S O => 0.5%float
  | _ => 1%float
  end.

(** The message of the validation error of [compute_recommendations]. *)
Definition no_skills : exn := ValueError "No skills provided in the profile".

(** A profile that gives its skills under the key [skills], as the one of
    [test_mock_recommendations] does. *)
Definition skills_key_profile : gmap string value :=
  <[ "skills" := VList ["python"; "statistics"] ]>
  (<[ "education_level" := VStr "bachelor" ]>
  (<[ "learning_pace" := VStr "normal" ]> ∅)).

(** The profile of [test_empty_skills_handling]: blank skills only. *)
Definition blank_skills_profile : gmap string value :=
  <[ "prior_skills" := VList [""; " "; "  "] ]> ∅.

(** A role whose list of microcredentials is empty. *)
Definition no_credential_role : job_role :=
  {| job_title := "IT Support";
     skills := "troubleshooting, networking, customer service";
     demand_score := Some 80;
     suggested_microcredentials := "" |}.

(** Two keys are in order when the second does not come strictly first. *)
Definition in_order {A K : Type} (precedes : K -> K -> bool) (key : A -> K)
    (x y : A) : Prop :=
  precedes (key y) (key x) = false.

(** The error of the neighbour query when asked for more rows than fitted. *)
Definition too_many_neighbors : exn := ValueError "Expected n_neighbors <= n_samples_fit".



(** What the engine of the tests returns for the profile of the tests, with
    the table of distances above. *)
Definition sample_recommendations : list recommendation :=
  Eval vm_compute in
    match compute_recommendations table_distance test_engine sample_profile with
    | Ok rs => recommendations rs
    | Err _ => []
    end.

(** The same profile in a hurry. *)
Definition fast_profile : gmap string value :=
  <[ "learning_pace" := VStr "fast" ]> sample_profile.

(** What the engine of the tests returns for the profile in a hurry. *)
Definition fast_recommendations : list recommendation :=
  Eval vm_compute in
    match compute_recommendations table_distance test_engine fast_profile with
    | Ok rs => recommendations rs
    | Err _ => []
    end.





(** A step of the returned pathway is the step the builder made, with its
    duration multiplied and truncated. *)
Definition scaled_from (m : float) (s0 s : pathway_step) : Prop :=
  PyNum.to_int (PyNum.of_int (duration_weeks s0) * m)%float = Ok (duration_weeks s)
  /\ step s = step s0 /\ title s = title s0 /\ description s = description s0
  /\ type_ s = type_ s0 /\ step_level s = step_level s0.

(** ** Values of binary64 numbers

    The bounds on the score are proved on the exact values of the numbers.
    A finite number [m * 2^e] has [e >= -1074], and a product of two has
    [e >= -2148]: scaled by [2^bias] all of them are integers. *)

Definition bias : Z := 2200.

(** The value of the pair [(m, e)], scaled by [2^bias]. *)
Definition scaled (m : Z) (e : Z) : Z := m * 2 ^ (e + bias).

(** The scaled value of a number; zero for what has no finite value. *)
Definition SFval (f : spec_float) : Z :=
  match f with
  | S754_finite s m e => if s then - scaled (Z.pos m) e else scaled (Z.pos m) e
  | _ => 0
  end.

(** The state of [shr] after [k] one-bit shifts of the mantissa [m0]: the
    quotient, and no round or sticky bit when nothing was shifted out. *)
Definition shifted (m0 : Z) (k : Z) (st : shr_record) : Prop :=
  shr_m st = m0 / 2 ^ k
  /\ (m0 mod 2 ^ k = 0 -> shr_r st = false /\ shr_s st = false).

(** A zero or a positive number of the format. *)
Definition nonneg_valid (f : spec_float) : Prop :=
  match f with
  | S754_zero _ => True
  | S754_finite false m e => bounded prec emax m e = true
  | _ => False
  end.

(** A zero or a positive number of the format of scaled value at most [G]. *)
Definition bounded_by (r : spec_float) (G : Z) : Prop :=
  match r with
  | S754_zero _ => True
  | S754_finite false m e => bounded prec emax m e = true /\ scaled (Z.pos m) e <= G
  | _ => False
  end.


(** The same for a primitive number. *)
Definition below (U : Z) (x : float) : Prop :=
  nonneg_valid (Prim2SF x) /\ SFval (Prim2SF x) <= U.

(** The integers [a], [a + 1], ..., [a + len - 1]. *)
Definition Zrange (a : Z) (len : nat) : list Z :=
  List.map (fun i => a + Z.of_nat i) (List.seq 0 len).

Definition in_0_100 (x : float) : bool := ((0 <=? x) && (x <=? 100))%float.

Definition in_0_04 (x : float) : bool := ((0 <=? x) && (x <=? 0.4))%float.

(** A set of elements is tied when none of them strictly precedes another. *)
Definition tied {A K : Type} (precedes : K -> K -> bool) (key : A -> K)
    (P : A -> bool) : Prop :=
  forall a b, P a = true -> P b = true -> precedes (key a) (key b) = false.

(** ** Definitions for the further properties *)

(** The rows of a table that a level range selects. *)
Definition in_level_range (cur target : Z) (l : nsqf_level) : bool :=
  (cur <? level l) && (level l <=? target).

(** The weeks of a pathway, summed. *)
Definition pathway_weeks (p : list pathway_step) : Z :=
  fold_right (fun s acc => duration_weeks s + acc) 0 p.

(** ** The request schema of [app/schemas/profile.py] *)

Module Schema.

(** [ProfileBase]: the fields of a learner profile, with their types. *)
Record ProfileBase : Type := {
  education_level : Z;
  prior_skills : list string;
  aspirations : string;
  learning_pace : string
}.

(** [request.profile.dict()]: what the endpoint hands to the engine. *)
Definition dict (pb : ProfileBase) : gmap string value :=
  <[ "education_level" := VInt (education_level pb) ]>
  (<[ "prior_skills" := VList (prior_skills pb) ]>
  (<[ "aspirations" := VStr (aspirations pb) ]>
  (<[ "learning_pace" := VStr (learning_pace pb) ]> ∅))).

End Schema.

(** The text of an explanation that reports [pct] percent. *)
Definition explanation_text (r : job_role) (pct demand : Z) : string :=
  "This role matches " +:+ PyStr.of_int pct +:+ "% of your existing skills "
  +:+ "and has a high demand score of " +:+ PyStr.of_int demand +:+ "/100. "
  +:+ "The role typically requires skills in: " +:+ skills r +:+ ".".


(** [get_total_duration] of [test_learning_pace_adjustment]: the weeks of
    every step of every recommendation, summed. *)
Definition get_total_duration (recommendation : recommendation_set) : Z :=
  fold_right Z.add 0
    (List.map duration_weeks
       (List.concat (List.map pathway (recommendations recommendation)))).

(** Two recommendations for the same role: the same title, score and
    explanation. *)
Definition same_ranking_entry (a b : recommendation) : Prop :=
  rec_job_title a = rec_job_title b
  /\ match_score a = match_score b
  /\ explanation a = explanation b.

(** The same, with pathways of the same steps, each shorter in [a]. *)
Definition same_but_shorter (a b : recommendation) : Prop :=
  same_ranking_entry a b
  /\ Forall2 (fun s s' => step s = step s' /\ title s = title s'
                          /\ step_level s = step_level s'
                          /\ duration_weeks s < duration_weeks s')
       (pathway a) (pathway b).

(** [c in s] for a character. *)
Fixpoint contains_char (c : ascii) (s : string) : bool :=
  match s with
  | EmptyString => false
  | String c' s' => Ascii.eqb c' c || contains_char c s'
  end.

(** [_calculate_skill_overlap]: the share of the skills of a role that are
    among the skills of the learner. *)
Definition _calculate_skill_overlap (user_skills : list string) (job_skills : string)
    : float :=
  let job_skill_set : gset string :=
    list_to_set (List.map (fun skill => PyStr.lower (PyStr.strip skill))
                   (PyStr.split "," job_skills)) in
  let user_skill_set : gset string := list_to_set user_skills in
  if bool_decide (job_skill_set = ∅) then 0%float
  else PyNum.true_div (Z.of_nat (size (user_skill_set ∩ job_skill_set)))
         (Z.of_nat (size job_skill_set)).

(** The function [compute_recommendations] of the module: it builds a
    recommender on the tables of the database, here the two lists that
    [_load_data] reads, and asks it. *)
Module Toplevel.
Definition compute_recommendations
    (cosine_distance : list string -> string -> nat -> float)
    (roles : list job_role) (levels : list nsqf_level) (profile : gmap string value)
    : result recommendation_set :=
  do recommender <- _train_model roles levels;
  compute_recommendations cosine_distance recommender profile.
End Toplevel.

(** * Properties *)

(** ** The error monad *)

Lemma rbind_Ok {A B : Type} (m : result A) (k : A -> result B) (b : B) :
  rbind m k = Ok b -> exists a, m = Ok a /\ k a = Ok b.
Proof. destruct m as [a|e]; simpl; intros H; [eauto | discriminate]. Qed.

Lemma rbind_Err {A B : Type} (m : result A) (k : A -> result B) (e : exn) :
  rbind m k = Err e -> m = Err e \/ exists a, m = Ok a /\ k a = Err e.
Proof. destruct m as [a|e']; simpl; intros H; [right; eauto | left; congruence]. Qed.

Lemma rmapM_Ok {A B : Type} (f : A -> result B) (l : list A) (bs : list B) :
  rmapM f l = Ok bs -> Forall2 (fun a b => f a = Ok b) l bs.
Proof.
  revert bs. induction l as [|a l IH]; simpl; intros bs H.
  - injection H as <-. constructor.
  - apply rbind_Ok in H as (b & Hb & H).
    apply rbind_Ok in H as (bs' & Hbs & H).
    injection H as <-. constructor; auto.
Qed.

Lemma rmapM_Err {A B : Type} (f : A -> result B) (l : list A) (e : exn) :
  rmapM f l = Err e -> exists a, In a l /\ f a = Err e.
Proof.
  induction l as [|a l IH]; simpl; intros H; [discriminate|].
  apply rbind_Err in H as [H | (b & Hb & H)].
  - exists a; auto.
  - apply rbind_Err in H as [H | (bs & Hbs & H)]; [|discriminate].
    destruct (IH H) as (a' & Hin & Ha'). exists a'; auto.
Qed.

Lemma rmapM_length {A B : Type} (f : A -> result B) (l : list A) (bs : list B) :
  rmapM f l = Ok bs -> length bs = length l.
Proof.
  intros H. apply rmapM_Ok in H. symmetry.
  induction H; simpl; congruence.
Qed.

(** ** The stable sort *)

Section StableSortFacts.
Context {A K : Type}.
Variable precedes : K -> K -> bool.
Variable key : A -> K.

Abbreviation insert := (stable_insert precedes key).
Abbreviation sort := (stable_sort precedes key).

Lemma stable_insert_perm (x : A) (l : list A) : Permutation (insert x l) (x :: l).
Proof.
  induction l as [|y l IH]; simpl; [reflexivity|].
  destruct (precedes (key y) (key x)); [|reflexivity].
  rewrite IH. apply perm_swap.
Qed.

Lemma stable_sort_perm (l : list A) : Permutation (sort l) l.
Proof.
  induction l as [|x l IH]; simpl; [reflexivity|].
  rewrite stable_insert_perm. now constructor.
Qed.

Lemma stable_sort_length (l : list A) : length (sort l) = length l.
Proof. apply Permutation_length, stable_sort_perm. Qed.

Lemma stable_sort_In (l : list A) (x : A) : In x (sort l) <-> In x l.
Proof.
  split; apply Permutation_in; [|symmetry]; apply stable_sort_perm.
Qed.

(** Stability: elements none of which strictly precedes another keep the
    order they had. *)
Lemma stable_insert_filter (P : A -> bool) (x : A) (l : list A) :
  tied precedes key P -> List.filter P (insert x l) = List.filter P (x :: l).
Proof.
  intros HP. induction l as [|y l IH]; [reflexivity|].
  simpl. destruct (precedes (key y) (key x)) eqn:Hyx; [|reflexivity].
  simpl in *. rewrite IH.
  destruct (P x) eqn:Hx, (P y) eqn:Hy; try reflexivity.
  rewrite (HP y x Hy Hx) in Hyx. discriminate.
Qed.

Lemma stable_sort_filter (P : A -> bool) (l : list A) :
  tied precedes key P -> List.filter P (sort l) = List.filter P l.
Proof.
  intros HP. induction l as [|x l IH]; [reflexivity|].
  simpl stable_sort. rewrite stable_insert_filter by assumption.
  simpl. now rewrite IH.
Qed.

(** Sortedness, for keys on which [precedes] is a strict weak order. *)
Variable ok : K -> Prop.
Hypothesis precedes_asym :
  forall a b, ok a -> ok b -> precedes a b = true -> precedes b a = false.
Hypothesis precedes_negtrans :
  forall a b c, ok a -> ok b -> ok c ->
    precedes a b = false -> precedes b c = false -> precedes a c = false.

Lemma stable_insert_sorted (x : A) (l : list A) :
  ok (key x) -> Forall (fun a => ok (key a)) l ->
  StronglySorted (in_order precedes key) l ->
  StronglySorted (in_order precedes key) (insert x l).
Proof.
  intros Hx Hl Hs. induction Hs as [|y l Hs IH Hy]; simpl.
  - repeat constructor.
  - apply Forall_cons_iff in Hl as [Hoky Hl].
    destruct (precedes (key y) (key x)) eqn:Hyx.
    + constructor; [auto|].
      apply Forall_forall. intros z Hz.
      rewrite stable_insert_perm in Hz. apply elem_of_cons in Hz as [->|Hz].
      * unfold in_order. auto.
      * revert z Hz. now apply Forall_forall.
    + constructor; [now constructor|].
      constructor; [exact Hyx|].
      rewrite Forall_forall in Hy, Hl |- *. intros z Hz.
      unfold in_order in *. eauto.
Qed.

Lemma stable_sort_sorted (l : list A) :
  Forall (fun a => ok (key a)) l -> StronglySorted (in_order precedes key) (sort l).
Proof.
  induction l as [|x l IH]; simpl; intros Hl; [constructor|].
  apply Forall_cons_iff in Hl as [Hx Hl].
  apply stable_insert_sorted; auto.
  apply Forall_forall. intros z Hz. rewrite stable_sort_perm in Hz.
  revert z Hz. now apply Forall_forall.
Qed.
End StableSortFacts.

(** ** The pathway builder *)

Lemma split_nonempty (sep : ascii) (s : string) : PyStr.split sep s <> [].
Proof.
  destruct s as [|c s]; simpl; [discriminate|].
  destruct (Ascii.eqb c sep); [discriminate|].
  destruct (PyStr.split sep s); discriminate.
Qed.

Lemma microcredentials_of_head (r : job_role) :
  exists m, first_of (microcredentials_of r) = Some m.
Proof.
  unfold microcredentials_of.
  destruct (PyStr.split "," (suggested_microcredentials r)) as [|m l] eqn:E.
  - now apply split_nonempty in E.
  - simpl. eauto.
Qed.

(** The early return of [_map_to_nsqf_pathway] agrees with the filter: at or
    above the target no level is in range. *)
Lemma map_to_nsqf_pathway_spec (levels : list nsqf_level) (cur target : Z) :
  _map_to_nsqf_pathway levels cur target = spec_pathway_levels levels cur target.
Proof.
  unfold _map_to_nsqf_pathway, spec_pathway_levels.
  destruct (cur >=? target) eqn:E; [|reflexivity].
  replace (List.filter _ levels) with (@nil nsqf_level); [reflexivity|].
  induction levels as [|l levels IH]; simpl; [reflexivity|].
  destruct (cur <? level l) eqn:E1, (level l <=? target) eqn:E2; simpl; auto.
  lia.
Qed.

Lemma StronglySorted_weaken {A : Type} (R S : A -> A -> Prop) (l : list A) :
  (forall x y, R x y -> S x y) -> StronglySorted R l -> StronglySorted S l.
Proof.
  intros HRS Hs. induction Hs as [|x l Hs IH Hx]; constructor; [exact IH|].
  eapply Forall_impl; [exact Hx|]. auto.
Qed.

Lemma pathway_levels_sorted (levels : list nsqf_level) (cur target : Z) :
  StronglySorted (fun x y => level x <= level y)
    (spec_pathway_levels levels cur target).
Proof.
  unfold spec_pathway_levels.
  eapply StronglySorted_weaken; cycle 1.
  - apply (stable_sort_sorted Z.ltb level (fun _ => True)).
    + intros a b _ _ H. lia.
    + intros a b c _ _ _ H1 H2. lia.
    + apply Forall_forall. auto.
  - intros x y H. unfold in_order in H. lia.
Qed.

Lemma pathway_levels_in_range (levels : list nsqf_level) (cur target : Z) (q : nsqf_level) :
  In q (spec_pathway_levels levels cur target) <->
  In q levels /\ cur < level q <= target.
Proof.
  unfold spec_pathway_levels. rewrite stable_sort_In, filter_In. intuition lia.
Qed.

Lemma sorted_head_lowest (l : list nsqf_level) (q q' : nsqf_level) :
  StronglySorted (fun x y => level x <= level y) l ->
  first_of l = Some q -> In q' l -> level q <= level q'.
Proof.
  intros Hs Hq Hin. destruct Hs as [|x l Hs Hx]; [discriminate|].
  injection Hq as ->. destruct Hin as [->|Hin]; [lia|].
  rewrite Forall_forall in Hx. apply Hx. now apply list_elem_of_In.
Qed.

Lemma sorted_last_highest (l : list nsqf_level) (q q' : nsqf_level) :
  StronglySorted (fun x y => level x <= level y) l ->
  last_of l = Some q -> In q' l -> level q' <= level q.
Proof.
  unfold last_of. intros Hs. induction Hs as [|x l Hs IH Hx]; [discriminate|].
  intros Hq Hin. destruct l as [|y l].
  - injection Hq as ->. destruct Hin as [->|[]]. lia.
  - change (last (y :: l) = Some q) in Hq.
    destruct Hin as [->|Hin]; [|auto].
    rewrite Forall_forall in Hx. apply Hx.
    apply list_elem_of_In. clear -Hq.
    revert y Hq. induction l as [|z l IHl]; intros y Hq.
    + injection Hq as ->. now left.
    + right. apply (IHl z). exact Hq.
Qed.

Lemma last_of_cons {A : Type} (x : A) (l : list A) : exists y, last_of (x :: l) = Some y.
Proof.
  unfold last_of. revert x. induction l as [|z l IH]; intros x; [simpl; eauto|].
  destruct (IH z) as (y & Hy). exists y. exact Hy.
Qed.

(** The shape of a pathway: what the levels in range contribute, then the
    micro-credential, then the internship. *)
Lemma create_learning_pathway_shape (levels : list nsqf_level) (r : job_role) (cur : Z) :
  exists m, first_of (microcredentials_of r) = Some m /\
  _create_learning_pathway levels r cur =
    match spec_pathway_levels levels cur 7 with
    | [] => []
    | [q] => [foundational_step q]
    | q :: l =>
        match last_of l with
        | Some ql => [foundational_step q; core_step ql]
        | None => [foundational_step q]
        end
    end ++ [microcredential_step m 7; internship_step r 7].
Proof.
  destruct (microcredentials_of_head r) as (m & Hm). exists m. split; [exact Hm|].
  unfold _create_learning_pathway. rewrite Hm, map_to_nsqf_pathway_spec.
  destruct (spec_pathway_levels levels cur 7) as [|q [|q2 l]]; try reflexivity.
  change (last_of (q :: q2 :: l)) with (last_of (q2 :: l)).
  destruct (last_of_cons q2 l) as (ql & ->). reflexivity.
Qed.

(** C3 (the code departs from the claim). The claim makes the
    Micro-credential step depend on the role having a microcredential. The
    builder splits the row's text at the commas, and a split never yields the
    empty list, so its test [if microcredentials] always passes: every pathway
    has a Micro-credential step, made from the first piece of the split, with
    duration 8, type [certification] and level 7. For a role whose
    microcredential text is empty the step is there all the same, with the
    empty title. *)
Theorem C3_microcredential_step_always_present
    (levels : list nsqf_level) (r : job_role) (cur : Z) :
  (exists m s,
      first_of (microcredentials_of r) = Some m /\
      find_step "Micro-credential" (_create_learning_pathway levels r cur) = Some s /\
      title s = m /\ duration_weeks s = 8 /\ type_ s = "certification" /\
      step_level s = 7)
  /\ microcredentials_of no_credential_role = [""]
  /\ find_step "Micro-credential" (_create_learning_pathway levels no_credential_role cur)
     = Some (microcredential_step "" 7).
Proof.
  assert (H : forall r', exists m,
             first_of (microcredentials_of r') = Some m /\
             find_step "Micro-credential" (_create_learning_pathway levels r' cur)
             = Some (microcredential_step m 7)).
  { intros r'. destruct (create_learning_pathway_shape levels r' cur) as (m & Hm & ->).
    exists m. split; [exact Hm|].
    destruct (spec_pathway_levels levels cur 7) as [|q [|q2 l]]; try reflexivity.
    destruct (last_of (q2 :: l)); reflexivity. }
  split; [|split].
  - destruct (H r) as (m & Hm & Hf).
    exists m, (microcredential_step m 7). repeat split; assumption.
  - reflexivity.
  - destruct (H no_credential_role) as (m & Hm & Hf).
    rewrite Hf. f_equal. f_equal. vm_compute in Hm. congruence.
Qed.

(** C4. With the pathway levels being the qualification levels strictly
    above the current level and at most 7, in ascending order: the
    Foundational step is present exactly when there is a pathway level, and is
    made from the lowest one, with duration 12 and type [course]; the Core
    step is present exactly when there is more than one pathway level, and is
    made from the highest one, with duration 16 and type [course]; the steps
    come in the order Foundational, Core, Micro-credential, Internship, the
    Internship step always last; at level 7 or above there is neither a
    Foundational nor a Core step. *)
Theorem C4_foundational_and_core_steps
    (levels : list nsqf_level) (r : job_role) (cur : Z) :
  let pl := spec_pathway_levels levels cur 7 in
  let p := _create_learning_pathway levels r cur in
  (* the pathway levels *)
  (forall q, In q pl <-> In q levels /\ cur < level q <= 7)
  /\ StronglySorted (fun x y => level x <= level y) pl
  (* Foundational *)
  /\ (find_step "Foundational" p <> None <-> pl <> [])
  /\ (forall s, find_step "Foundational" p = Some s ->
        exists q, first_of pl = Some q
          /\ (forall q', In q' pl -> level q <= level q')
          /\ title s = qualification q /\ step_level s = level q
          /\ duration_weeks s = 12 /\ type_ s = "course")
  (* Core *)
  /\ (find_step "Core" p <> None <-> (1 < length pl)%nat)
  /\ (forall s, find_step "Core" p = Some s ->
        exists q, last_of pl = Some q
          /\ (forall q', In q' pl -> level q' <= level q)
          /\ title s = qualification q /\ step_level s = level q
          /\ duration_weeks s = 16 /\ type_ s = "course")
  (* the order of the steps *)
  /\ sublist (List.map step p) step_order
  /\ last_of p = Some (internship_step r 7)
  (* at or above the target *)
  /\ (7 <= cur -> find_step "Foundational" p = None /\ find_step "Core" p = None).
Proof.
  intros pl p.
  pose proof (pathway_levels_sorted levels cur 7) as Hs. fold pl in Hs.
  pose proof (pathway_levels_in_range levels cur 7) as Hr. fold pl in Hr.
  destruct (create_learning_pathway_shape levels r cur) as (m & Hm & Hp).
  fold p pl in Hp.
  split; [exact Hr|]. split; [exact Hs|].
  assert (Hhigh : forall q, In q pl -> 7 <= cur -> False).
  { intros q Hq Hcur. apply Hr in Hq. lia. }
  destruct pl as [|q [|q2 l]] eqn:Epl'.
  - (* no pathway level *)
    rewrite Hp. simpl.
    repeat split; try discriminate; try congruence; try (simpl; lia).
    unfold step_order. repeat first [apply sublist_nil | apply sublist_skip | apply sublist_cons].
  - (* one pathway level *)
    rewrite Hp. simpl.
    repeat split; try discriminate; try congruence; try (simpl; lia);
      try (exfalso; apply (Hhigh q); [now left | assumption]).
    + intros s [= <-]. exists q. repeat split.
      intros q' [->|[]]. lia.
    + unfold step_order. repeat first [apply sublist_nil | apply sublist_skip | apply sublist_cons].
  - (* several pathway levels *)
    destruct (last_of_cons q2 l) as (ql & Hql). rewrite Hql in Hp.
    assert (Hlast : last_of (q :: q2 :: l) = Some ql) by exact Hql.
    rewrite Hp. simpl.
    repeat split; try discriminate; try congruence; try (simpl; lia);
      try (exfalso; apply (Hhigh q); [now left | assumption]).
    + intros s [= <-]. exists q. repeat split.
      intros q' Hq'. now apply (sorted_head_lowest (q :: q2 :: l)).
    + intros s [= <-]. exists ql. repeat split; [exact Hlast|].
      intros q' Hq'. now apply (sorted_last_highest (q :: q2 :: l)).
    + unfold step_order. repeat first [apply sublist_nil | apply sublist_skip | apply sublist_cons].
Qed.

(** ** Validation of the profile *)

Lemma normalize_skills_length (l : list string) :
  length (_normalize_skills l) = length l.
Proof. unfold _normalize_skills. apply length_map. Qed.

Lemma normalize_skills_nil (l : list string) : _normalize_skills l = [] <-> l = [].
Proof. destruct l; simpl; split; intros H; congruence. Qed.

Lemma to_int_not_no_skills (x : float) : PyNum.to_int x <> Err no_skills.
Proof. unfold PyNum.to_int. destruct (Prim2SF x); discriminate. Qed.

Lemma scale_step_not_no_skills (m : float) (s : pathway_step) :
  scale_step m s <> Err no_skills.
Proof.
  unfold scale_step. intros H. apply rbind_Err in H as [H | (d & _ & H)].
  - now apply to_int_not_no_skills in H.
  - discriminate.
Qed.

Section Validation.
Variable cosine_distance : list string -> string -> nat -> float.

Lemma recommend_one_not_no_skills (e : engine) (p : gmap string value)
    (n : nat * float) :
  recommend_one e p n <> Err no_skills.
Proof.
  destruct n as [idx distance]. unfold recommend_one. intros H.
  apply rbind_Err in H as [H | (r & _ & H)].
  { destruct (nth_error _ _); discriminate. }
  apply rbind_Err in H as [H | (lvl & _ & H)].
  { destruct (dict_get p "education_level" (VInt 1)); discriminate. }
  apply rbind_Err in H as [H | (m & _ & H)].
  { destruct (dict_get p "learning_pace" (VStr "normal")); discriminate. }
  apply rbind_Err in H as [H | (pw & _ & H)].
  { apply rmapM_Err in H as (s & _ & H). now apply scale_step_not_no_skills in H. }
  apply rbind_Err in H as [H | (ex & _ & H)]; [|discriminate].
  unfold _generate_explanation in H.
  apply rbind_Err in H as [H | (pct & _ & H)]; [|discriminate].
  now apply to_int_not_no_skills in H.
Qed.

(** The validation error is raised exactly when there is no skill to
    iterate over: [_normalize_skills] keeps one entry per entry. *)
Lemma no_skills_iff (e : engine) (p : gmap string value) :
  compute_recommendations cosine_distance e p = Err no_skills <->
  iter_strings (dict_get p "prior_skills" (VList [])) = Ok [].
Proof.
  unfold compute_recommendations.
  destruct (iter_strings _) as [l|err] eqn:El; simpl.
  - destruct l as [|s l]; simpl; [split; reflexivity|].
    split; [|discriminate]. intros H. exfalso.
    apply rbind_Err in H as [H | (ns & _ & H)].
    { unfold kneighbors in H. destruct (_ <? _)%nat; discriminate. }
    apply rbind_Err in H as [H | (rs & _ & H)]; [|discriminate].
    apply rmapM_Err in H as (n & _ & H).
    now apply recommend_one_not_no_skills in H.
  - split; [|discriminate]. intros H. exfalso.
    destruct (dict_get p "prior_skills" (VList [])); simpl in El; try discriminate.
    injection El as <-. discriminate.
Qed.
End Validation.

(** C1 (the code departs from the claim). The claim has normalization drop
    the entries that are blank after stripping, so that a list of blank
    entries fails validation; [test_empty_skills_handling] expects the same.
    [_normalize_skills] lower-cases and strips but drops nothing: the three
    blank entries become three empty strings, the list is not empty, and the
    validation error is not raised, whatever the engine; on the test catalog
    the call returns three recommendations. *)
Theorem C1_blank_skills_pass_validation
    (cosine_distance : list string -> string -> nat -> float) (e : engine) :
  _normalize_skills [""; " "; "  "] = [""; ""; ""]
  /\ compute_recommendations cosine_distance e blank_skills_profile <> Err no_skills
  /\ exists rs,
       compute_recommendations table_distance test_engine blank_skills_profile = Ok rs
       /\ length (recommendations rs) = 3%nat.
Proof.
  split; [reflexivity|]. split.
  - rewrite no_skills_iff. vm_compute. discriminate.
  - eexists. split; [vm_compute; reflexivity|reflexivity].
Qed.

(** C10. The skills are read from the key [prior_skills] alone: for every
    profile without that key, whatever else it holds, the call raises the
    validation error [ValueError("No skills provided in the profile")] and
    returns nothing. *)
Theorem C10_missing_prior_skills
    (cosine_distance : list string -> string -> nat -> float) (e : engine)
    (p : gmap string value) :
  p !! "prior_skills" = None ->
  compute_recommendations cosine_distance e p
  = Err (ValueError "No skills provided in the profile").
Proof.
  intros H. apply no_skills_iff. unfold dict_get. rewrite H. reflexivity.
Qed.

(** The empty profile and the profile that names its skills [skills]. *)
Lemma C10_missing_prior_skills_witness :
  (skills_key_profile !! "prior_skills" = None
   /\ compute_recommendations table_distance test_engine skills_key_profile
      = Err (ValueError "No skills provided in the profile"))
  /\ compute_recommendations table_distance test_engine ∅
     = Err (ValueError "No skills provided in the profile").
Proof.
  split; [split; [reflexivity|]|].
  - apply (C10_missing_prior_skills table_distance test_engine skills_key_profile).
    reflexivity.
  - apply (C10_missing_prior_skills table_distance test_engine ∅). reflexivity.
Defined.

(** ** The neighbour query *)

Section Query.
Variable cosine_distance : list string -> string -> nat -> float.

Lemma kneighbors_too_many (e : engine) (q : string) (k : nat) :
  (length (job_roles e) < k)%nat ->
  kneighbors cosine_distance e q k = Err too_many_neighbors.
Proof.
  intros H. unfold kneighbors.
  destruct (Nat.ltb_spec (length (job_roles e)) k); [reflexivity | lia].
Qed.

Lemma kneighbors_enough (e : engine) (q : string) (k : nat) :
  (k <= length (job_roles e))%nat ->
  exists ns, kneighbors cosine_distance e q k = Ok ns /\ length ns = k
    /\ Forall (fun n => (fst n < length (job_roles e))%nat) ns.
Proof.
  intros H. unfold kneighbors.
  destruct (Nat.ltb_spec (length (job_roles e)) k); [lia|].
  eexists. split; [reflexivity|]. split.
  - rewrite length_firstn, stable_sort_length, length_map, length_seq. lia.
  - apply Forall_forall. intros n Hn.
    apply subseteq_take, list_elem_of_In in Hn.
    apply stable_sort_In, in_map_iff in Hn as (i & <- & Hi).
    apply in_seq in Hi. simpl. lia.
Qed.

(** What a returned set was made of: the skills found under [prior_skills],
    the three neighbours of their text, one recommendation per neighbour, and
    the sort. *)
Lemma compute_recommendations_Ok (e : engine) (p : gmap string value)
    (rs : recommendation_set) :
  compute_recommendations cosine_distance e p = Ok rs ->
  exists l ns unsorted,
    iter_strings (dict_get p "prior_skills" (VList [])) = Ok l
    /\ l <> []
    /\ kneighbors cosine_distance e (PyStr.join ", " (_normalize_skills l)) 3 = Ok ns
    /\ Forall2 (fun n r => recommend_one e p n = Ok r) ns unsorted
    /\ recommendations rs = sort_recommendations unsorted
    /\ skills_count (profile rs) = Z.of_nat (length l).
Proof.
  unfold compute_recommendations. intros H.
  apply rbind_Ok in H as (l & Hl & H).
  destruct l as [|s l]; [discriminate|].
  change (_normalize_skills (s :: l)) with
    (PyStr.strip (PyStr.lower s) :: _normalize_skills l) in H.
  cbv iota in H.
  apply rbind_Ok in H as (ns & Hns & H).
  apply rbind_Ok in H as (unsorted & Hun & H).
  injection H as <-. exists (s :: l), ns, unsorted.
  repeat split; try assumption; try discriminate.
  - now apply rmapM_Ok.
  - simpl. now rewrite normalize_skills_length.
Qed.
End Query.

(** C2 (amended). The neighbour query is not clamped to the corpus: it asks
    for three rows whatever the catalog holds. For every engine with fewer
    than three job roles and every profile that passes validation, the query
    raises its [ValueError] and [compute_recommendations] lets it reach the
    caller; with three roles or more the query answers with exactly three
    rows of the catalog. *)
Theorem C2_small_corpus_query_fails
    (cosine_distance : list string -> string -> nat -> float)
    (e : engine) (p : gmap string value) (s : string) (l : list string) :
  iter_strings (dict_get p "prior_skills" (VList [])) = Ok (s :: l) ->
  ((length (job_roles e) < 3)%nat ->
     compute_recommendations cosine_distance e p
     = Err (ValueError "Expected n_neighbors <= n_samples_fit"))
  /\ ((3 <= length (job_roles e))%nat ->
        exists ns,
          kneighbors cosine_distance e
            (PyStr.join ", " (_normalize_skills (s :: l))) 3 = Ok ns
          /\ length ns = 3%nat
          /\ Forall (fun n => (fst n < length (job_roles e))%nat) ns).
Proof.
  intros Hl. split; intros Hn.
  - unfold compute_recommendations. rewrite Hl. simpl.
    rewrite kneighbors_too_many by assumption. reflexivity.
  - now apply kneighbors_enough.
Qed.

(** The two-role catalog and the profile of the tests. *)
Lemma C2_small_corpus_query_fails_witness :
  compute_recommendations table_distance small_engine sample_profile
  = Err (ValueError "Expected n_neighbors <= n_samples_fit").
Proof.
  apply (C2_small_corpus_query_fails table_distance small_engine sample_profile
           "python" ["data analysis"; "statistics"]).
  - reflexivity.
  - simpl. lia.
Defined.

(** The claim fails on a two-role catalog: the engine is built, the profile
    is valid, and the call raises instead of returning the two roles. *)
Lemma C2_counterexample :
  _train_model [data_analyst; data_scientist] test_levels = Ok small_engine
  /\ (length (job_roles small_engine) < 3)%nat
  /\ _normalize_skills ["python"; "data analysis"; "statistics"]
     = ["python"; "data analysis"; "statistics"]
  /\ ~ exists rs,
       compute_recommendations table_distance small_engine sample_profile = Ok rs.
Proof.
  split; [reflexivity|]. split; [simpl; lia|]. split; [reflexivity|].
  intros (rs & H). vm_compute in H. discriminate.
Qed.

(** ** One recommendation *)

Lemma recommend_one_Ok (e : engine) (p : gmap string value) (idx : nat) (d : float)
    (rec : recommendation) :
  recommend_one e p (idx, d) = Ok rec ->
  exists r lvl m,
    nth_error (job_roles e) idx = Some r
    /\ as_level (dict_get p "education_level" (VInt 1)) = Ok lvl
    /\ pace_multiplier (dict_get p "learning_pace" (VStr "normal")) = Ok m
    /\ rmapM (scale_step m) (_create_learning_pathway (nsqf_levels e) r lvl)
       = Ok (pathway rec)
    /\ _generate_explanation r (1 - d) (default 50 (demand_score r))
       = Ok (explanation rec)
    /\ rec_job_title rec = job_title r
    /\ match_score rec
       = PyNum.round1 (combined_score (1 - d) (default 50 (demand_score r)) * 100).
Proof.
  unfold recommend_one. intros H.
  apply rbind_Ok in H as (r & Hr & H).
  apply rbind_Ok in H as (lvl & Hlvl & H).
  apply rbind_Ok in H as (m & Hm & H).
  apply rbind_Ok in H as (pw & Hpw & H).
  apply rbind_Ok in H as (ex & Hex & H).
  injection H as <-. exists r, lvl, m. simpl.
  destruct (nth_error (job_roles e) idx) as [r'|]; [|discriminate].
  injection Hr as ->. repeat split; assumption.
Qed.

Lemma Forall2_In_r {A B : Type} (R : A -> B -> Prop) (l : list A) (l' : list B) (b : B) :
  Forall2 R l l' -> In b l' -> exists a, In a l /\ R a b.
Proof.
  intros H. induction H as [|a b' l l' Hab H IH]; intros Hin; [destruct Hin|].
  destruct Hin as [<-|Hin].
  - exists a. split; [now left | exact Hab].
  - destruct (IH Hin) as (a' & Ha' & HR). exists a'. split; [now right | exact HR].
Qed.

Section Returned.
Variable cosine_distance : list string -> string -> nat -> float.

(** Every recommendation of a returned set was made by the loop body from
    one of the three neighbours of the normalized skills. *)
Lemma returned_from_neighbor (e : engine) (p : gmap string value)
    (rs : recommendation_set) (rec : recommendation) :
  compute_recommendations cosine_distance e p = Ok rs ->
  In rec (recommendations rs) ->
  exists l ns idx d,
    iter_strings (dict_get p "prior_skills" (VList [])) = Ok l
    /\ kneighbors cosine_distance e (PyStr.join ", " (_normalize_skills l)) 3 = Ok ns
    /\ In (idx, d) ns
    /\ recommend_one e p (idx, d) = Ok rec.
Proof.
  intros H Hin.
  apply compute_recommendations_Ok in H as (l & ns & un & Hl & _ & Hns & Hun & Hrs & _).
  rewrite Hrs in Hin. apply stable_sort_In in Hin.
  destruct (Forall2_In_r _ _ _ _ Hun Hin) as ([idx d] & Hn & Hrec).
  exists l, ns, idx, d. auto.
Qed.
End Returned.

(** ** The score *)



(** ** The pace *)

Lemma pace_multiplier_cases (v : value) (m : float) :
  pace_multiplier v = Ok m -> m = 1.3%float \/ m = 1.0%float \/ m = 0.7%float.
Proof.
  destruct v as [n|s|l]; simpl; intros H; [| |discriminate].
  - injection H as <-. auto.
  - injection H as <-.
    destruct (String.eqb s "slow"); auto.
    destruct (String.eqb s "normal"); auto.
    destruct (String.eqb s "fast"); auto.
Qed.

Lemma pace_multiplier_slow_fast (p : gmap string value) (m : float) :
  pace_multiplier (dict_get p "learning_pace" (VStr "normal")) = Ok m ->
  (p !! "learning_pace" = Some (VStr "slow") -> m = 1.3%float)
  /\ (p !! "learning_pace" = Some (VStr "normal") -> m = 1.0%float)
  /\ (p !! "learning_pace" = Some (VStr "fast") -> m = 0.7%float)
  /\ (p !! "learning_pace" <> Some (VStr "slow") ->
      p !! "learning_pace" <> Some (VStr "fast") -> m = 1.0%float).
Proof.
  unfold dict_get. intros H.
  destruct (p !! "learning_pace") as [[n|s|l]|] eqn:E; simpl in H; try discriminate;
    injection H as <-.
  - repeat split; intros; congruence.
  - repeat split.
    + intros [= ->]. reflexivity.
    + intros [= ->]. reflexivity.
    + intros [= ->]. reflexivity.
    + intros Hs Hf.
      destruct (String.eqb_spec s "slow") as [->|_]; [congruence|].
      destruct (String.eqb_spec s "normal") as [->|_]; [reflexivity|].
      destruct (String.eqb_spec s "fast") as [->|_]; [congruence|reflexivity].
  - repeat split; intros; congruence.
Qed.

Lemma scale_step_Ok (m : float) (s0 s : pathway_step) :
  scale_step m s0 = Ok s -> scaled_from m s0 s.
Proof.
  unfold scale_step, scaled_from. intros H.
  apply rbind_Ok in H as (d & Hd & H). injection H as <-. simpl.
  repeat split. exact Hd.
Qed.

Lemma base_durations (levels : list nsqf_level) (r : job_role) (cur : Z) :
  Forall (fun s => duration_weeks s = 8 \/ duration_weeks s = 12 \/ duration_weeks s = 16)
    (_create_learning_pathway levels r cur).
Proof.
  destruct (create_learning_pathway_shape levels r cur) as (m & _ & ->).
  destruct (spec_pathway_levels levels cur 7) as [|q [|q2 l]];
    [| |destruct (last_of (q2 :: l))];
    repeat (first [apply List.Forall_nil | apply List.Forall_cons]); simpl; auto.
Qed.

(** The nine products of a base duration and a multiplier. *)
Lemma scaled_duration_positive (m : float) (d0 d : Z) :
  m = 1.3%float \/ m = 1.0%float \/ m = 0.7%float ->
  d0 = 8 \/ d0 = 12 \/ d0 = 16 ->
  PyNum.to_int (PyNum.of_int d0 * m)%float = Ok d -> 1 <= d.
Proof.
  intros [-> | [-> | ->]] [-> | [-> | ->]] H; vm_compute in H; injection H as <-; lia.
Qed.

(** C6. In every recommendation of a returned set, every step is the step
    the pathway builder made with its [duration_weeks] replaced by
    [int(duration_weeks * multiplier)], the truncated product, where the
    multiplier is 1.3 for the pace [slow], 1.0 for [normal], 0.7 for [fast]
    and 1.0 for any other or absent pace; and every step lasts at least one
    week. *)
Theorem C6_pace_scaling
    (cosine_distance : list string -> string -> nat -> float)
    (e : engine) (p : gmap string value) (rs : recommendation_set)
    (rec : recommendation) :
  compute_recommendations cosine_distance e p = Ok rs ->
  In rec (recommendations rs) ->
  exists m r lvl,
    ((p !! "learning_pace" = Some (VStr "slow") -> m = 1.3%float)
     /\ (p !! "learning_pace" = Some (VStr "normal") -> m = 1.0%float)
     /\ (p !! "learning_pace" = Some (VStr "fast") -> m = 0.7%float)
     /\ (p !! "learning_pace" <> Some (VStr "slow") ->
         p !! "learning_pace" <> Some (VStr "fast") -> m = 1.0%float))
    /\ In r (job_roles e)
    /\ as_level (dict_get p "education_level" (VInt 1)) = Ok lvl
    /\ Forall2 (scaled_from m)
         (_create_learning_pathway (nsqf_levels e) r lvl) (pathway rec)
    /\ Forall (fun s => 1 <= duration_weeks s) (pathway rec).
Proof.
  intros H Hin.
  destruct (returned_from_neighbor _ _ _ _ _ H Hin)
    as (l & ns & idx & d & _ & _ & _ & Hrec).
  apply recommend_one_Ok in Hrec as (r & lvl & m & Hr & Hlvl & Hm & Hpw & _).
  exists m, r, lvl.
  split; [now apply pace_multiplier_slow_fast|].
  split; [now apply nth_error_In in Hr|].
  split; [exact Hlvl|].
  apply rmapM_Ok in Hpw.
  assert (Hsc : Forall2 (scaled_from m)
                  (_create_learning_pathway (nsqf_levels e) r lvl) (pathway rec)).
  { eapply Forall2_impl; [exact Hpw|]. intros s0 s. apply scale_step_Ok. }
  split; [exact Hsc|].
  pose proof (base_durations (nsqf_levels e) r lvl) as Hbase.
  apply pace_multiplier_cases in Hm.
  clear -Hsc Hbase Hm. induction Hsc as [|s0 s l0 l' Hs Hsc IH]; [constructor|].
  apply Forall_cons_iff in Hbase as [Hd Hbase].
  constructor; [|auto].
  destruct Hs as (Hs & _). now apply (scaled_duration_positive m (duration_weeks s0)).
Qed.

(** The profile of the tests at the pace [fast]: 12, 16, 8 and 12 weeks
    become 8, 11, 5 and 8. *)
Lemma C6_pace_scaling_witness :
  exists rs rec,
    compute_recommendations table_distance test_engine fast_profile = Ok rs
    /\ In rec (recommendations rs)
    /\ List.map duration_weeks (pathway rec) = [8; 11; 5; 8]
    /\ exists m r lvl,
         ((fast_profile !! "learning_pace" = Some (VStr "slow") -> m = 1.3%float)
          /\ (fast_profile !! "learning_pace" = Some (VStr "normal") -> m = 1.0%float)
          /\ (fast_profile !! "learning_pace" = Some (VStr "fast") -> m = 0.7%float)
          /\ (fast_profile !! "learning_pace" <> Some (VStr "slow") ->
              fast_profile !! "learning_pace" <> Some (VStr "fast") -> m = 1.0%float))
         /\ In r (job_roles test_engine)
         /\ as_level (dict_get fast_profile "education_level" (VInt 1)) = Ok lvl
         /\ Forall2 (scaled_from m)
              (_create_learning_pathway (nsqf_levels test_engine) r lvl) (pathway rec)
         /\ Forall (fun s => 1 <= duration_weeks s) (pathway rec).
Proof.
  assert (H : compute_recommendations table_distance test_engine fast_profile
              = Ok {| recommendations := fast_recommendations;
                      profile := {| education_level := VInt 4; skills_count := 3;
                                    learning_pace := VStr "fast" |} |})
    by (vm_compute; reflexivity).
  eexists. exists (hd (Build_recommendation "" 0%float [] "") fast_recommendations).
  split; [exact H|].
  assert (Hin : In (hd (Build_recommendation "" 0%float [] "") fast_recommendations)
                  fast_recommendations) by (left; reflexivity).
  split; [exact Hin|]. split; [reflexivity|].
  exact (C6_pace_scaling table_distance test_engine fast_profile _ _ H Hin).
Defined.

(** ** Determinism *)


(** ** The order of binary64 numbers *)

(** The comparisons of [PrimFloat] are those of [SpecFloat] on the decoded
    numbers; away from NaN they form a total preorder. *)











(** ** The ranking *)




(** ** The arithmetic of binary64 numbers

    The operations of [PrimFloat] are specified by those of [SpecFloat]:
    the exact result, then a rounding to the nearest number of the format.
    What follows shows that such a rounding never passes a number of the
    format that bounds the exact result, which gives the bounds of a sum, a
    difference and a product from the bounds of their operands. *)

Lemma digits2_pos_bounds (m : positive) :
  2 ^ (Z.pos (digits2_pos m) - 1) <= Z.pos m < 2 ^ Z.pos (digits2_pos m).
Proof.
  induction m as [m IH|m IH|]; simpl digits2_pos.
  - rewrite Pos2Z.inj_succ.
    replace (Z.succ (Z.pos (digits2_pos m)) - 1) with (Z.succ (Z.pos (digits2_pos m) - 1)) by lia.
    rewrite !Z.pow_succ_r by lia. lia.
  - rewrite Pos2Z.inj_succ.
    replace (Z.succ (Z.pos (digits2_pos m)) - 1) with (Z.succ (Z.pos (digits2_pos m) - 1)) by lia.
    rewrite !Z.pow_succ_r by lia. lia.
  - simpl. lia.
Qed.

Lemma pow2_pos (n : Z) : 0 <= n -> 0 < 2 ^ n.
Proof. intros. apply Z.pow_pos_nonneg; lia. Qed.

Lemma pow2_le (a b : Z) : 0 <= a <= b -> 2 ^ a <= 2 ^ b.
Proof. intros. apply Z.pow_le_mono_r; lia. Qed.

Lemma pow2_lt (a b : Z) : 0 <= a < b -> 2 ^ a < 2 ^ b.
Proof. intros. apply Z.pow_lt_mono_r; lia. Qed.

(** The number of digits of a mantissa, from bounds on the mantissa. *)
Lemma digits2_pos_ge (m : positive) (j : Z) :
  0 <= j -> 2 ^ j <= Z.pos m -> j < Z.pos (digits2_pos m).
Proof.
  intros Hj H. pose proof (digits2_pos_bounds m) as [_ Hu].
  destruct (Z_lt_le_dec j (Z.pos (digits2_pos m))) as [|Hle]; [assumption|].
  pose proof (pow2_le (Z.pos (digits2_pos m)) j). lia.
Qed.

Lemma digits2_pos_le (m : positive) (j : Z) :
  0 <= j -> Z.pos m < 2 ^ j -> Z.pos (digits2_pos m) <= j.
Proof.
  intros Hj H. pose proof (digits2_pos_bounds m) as [Hl _].
  destruct (Z_le_gt_dec (Z.pos (digits2_pos m)) j) as [|Hgt]; [assumption|].
  pose proof (pow2_le j (Z.pos (digits2_pos m) - 1)). lia.
Qed.

(** What [bounded] says of a mantissa and its exponent: the exponent is in
    range, and the mantissa has 53 digits unless the exponent is the least. *)
Lemma bounded_inv (m : positive) (e : Z) :
  bounded prec emax m e = true ->
  -1074 <= e <= 971 /\ Z.pos (digits2_pos m) <= 53 /\
  (e = -1074 \/ Z.pos (digits2_pos m) = 53).
Proof.
  unfold bounded, canonical_mantissa, fexp, SpecFloat.emin, prec, emax.
  intros H. apply andb_prop in H as [H1 H2].
  apply Z.eqb_eq in H1. apply Z.leb_le in H2. lia.
Qed.

Lemma bounded_intro (m : positive) (e : Z) :
  -1074 <= e <= 971 -> Z.pos (digits2_pos m) <= 53 ->
  (e = -1074 \/ Z.pos (digits2_pos m) = 53) ->
  bounded prec emax m e = true.
Proof.
  unfold bounded, canonical_mantissa, fexp, SpecFloat.emin, prec, emax.
  intros. apply andb_true_intro. split; [apply Z.eqb_eq | apply Z.leb_le]; lia.
Qed.

Lemma scaled_pos (m : positive) (e : Z) : -bias <= e -> 0 < scaled (Z.pos m) e.
Proof.
  intros H. unfold scaled. apply Z.mul_pos_pos; [lia|]. apply pow2_pos. lia.
Qed.

(** On positive numbers of the format, [SFcompare] compares the values. *)
Lemma compare_canonical (m1 m2 : positive) (e1 e2 : Z) :
  bounded prec emax m1 e1 = true -> bounded prec emax m2 e2 = true ->
  SFcompare (S754_finite false m1 e1) (S754_finite false m2 e2)
  = Some (scaled (Z.pos m1) e1 ?= scaled (Z.pos m2) e2).
Proof.
  intros H1 H2. apply bounded_inv in H1 as (He1 & Hd1 & Hc1).
  apply bounded_inv in H2 as (He2 & Hd2 & Hc2).
  pose proof (digits2_pos_bounds m1) as [Hl1 Hu1].
  pose proof (digits2_pos_bounds m2) as [Hl2 Hu2].
  assert (Hm1 : Z.pos m1 < 2 ^ 53).
  { eapply Z.lt_le_trans; [exact Hu1|]. apply pow2_le. lia. }
  assert (Hm2 : Z.pos m2 < 2 ^ 53).
  { eapply Z.lt_le_trans; [exact Hu2|]. apply pow2_le. lia. }
  unfold SFcompare, scaled, bias. f_equal.
  destruct (Z.compare_spec e1 e2) as [->|Hlt|Hgt].
  - change (Pos.compare_cont Eq m1 m2) with (Z.pos m1 ?= Z.pos m2).
    pose proof (pow2_pos (e2 + 2200) ltac:(lia)).
    destruct (Z.compare_spec (Z.pos m1) (Z.pos m2)) as [Heq|Hlt|Hgt]; symmetry.
    + apply Z.compare_eq_iff. now rewrite Heq.
    + apply Z.compare_lt_iff. now apply Z.mul_lt_mono_pos_r.
    + apply Z.compare_gt_iff. now apply Z.mul_lt_mono_pos_r.
  - symmetry. apply Z.compare_lt_iff.
    assert (Hd : Z.pos (digits2_pos m2) = 53) by lia. rewrite Hd in Hl2.
    replace (e2 + 2200) with ((e2 - e1) + (e1 + 2200)) by lia.
    rewrite (Z.pow_add_r 2 (e2 - e1) (e1 + 2200)) by lia.
    pose proof (pow2_pos (e1 + 2200) ltac:(lia)).
    pose proof (pow2_le 1 (e2 - e1) ltac:(lia)).
    change (2 ^ (53 - 1)) with 4503599627370496 in Hl2.
    change (2 ^ 53) with 9007199254740992 in Hm1.
    change (2 ^ 1) with 2 in *.
    assert (Z.pos m1 < Z.pos m2 * 2 ^ (e2 - e1)) by nia.
    rewrite Z.mul_assoc. now apply Z.mul_lt_mono_pos_r.
  - symmetry. apply Z.compare_gt_iff.
    assert (Hd : Z.pos (digits2_pos m1) = 53) by lia. rewrite Hd in Hl1.
    replace (e1 + 2200) with ((e1 - e2) + (e2 + 2200)) by lia.
    rewrite (Z.pow_add_r 2 (e1 - e2) (e2 + 2200)) by lia.
    pose proof (pow2_pos (e2 + 2200) ltac:(lia)).
    pose proof (pow2_le 1 (e1 - e2) ltac:(lia)).
    change (2 ^ (53 - 1)) with 4503599627370496 in Hl1.
    change (2 ^ 53) with 9007199254740992 in Hm2.
    change (2 ^ 1) with 2 in *.
    assert (Z.pos m2 < Z.pos m1 * 2 ^ (e1 - e2)) by nia.
    rewrite Z.mul_assoc. now apply Z.mul_lt_mono_pos_r.
Qed.

(** *** Shifting right *)

Lemma iter_pos_invariant {A : Type} (f : A -> A) (P : Z -> A -> Prop) :
  (forall k x, 0 <= k -> P k x -> P (k + 1) (f x)) ->
  forall p k x, 0 <= k -> P k x -> P (k + Z.pos p) (SpecFloat.iter_pos f p x).
Proof.
  intros Hstep. induction p as [p IH|p IH|]; intros k x Hk Hx; simpl.
  - replace (k + Z.pos p~1) with (k + 1 + Z.pos p + Z.pos p) by lia.
    apply IH; [lia|]. apply IH; [lia|]. now apply Hstep.
  - replace (k + Z.pos p~0) with (k + Z.pos p + Z.pos p) by lia.
    apply IH; [lia|]. now apply IH.
  - now apply Hstep.
Qed.

Lemma shr_1_spec (st : shr_record) :
  0 <= shr_m st ->
  shr_m (shr_1 st) = shr_m st / 2
  /\ shr_r (shr_1 st) = Z.odd (shr_m st)
  /\ shr_s (shr_1 st) = shr_r st || shr_s st.
Proof.
  destruct st as [m r s]. simpl. intros Hm.
  destruct m as [|[p|p|]|p]; simpl; try lia; repeat split; try reflexivity.
  - rewrite Pos2Z.inj_xI. apply (Z.div_unique _ 2 _ 1); lia.
  - rewrite Pos2Z.inj_xO. apply (Z.div_unique _ 2 _ 0); lia.
Qed.

Lemma shifted_step (m0 k : Z) (st : shr_record) :
  0 <= m0 -> 0 <= k -> shifted m0 k st -> shifted m0 (k + 1) (shr_1 st).
Proof.
  intros Hm0 Hk [Hm Hrs].
  assert (Hp : 0 < 2 ^ k) by (apply pow2_pos; lia).
  assert (Hnn : 0 <= shr_m st) by (rewrite Hm; apply Z.div_pos; lia).
  destruct (shr_1_spec st Hnn) as (H1 & H2 & H3).
  assert (Hpow : 2 ^ (k + 1) = 2 ^ k * 2) by (rewrite Z.pow_add_r by lia; reflexivity).
  split.
  - rewrite H1, Hm, Hpow. rewrite Z.div_div by lia. reflexivity.
  - intros Hmod. rewrite Hpow in Hmod.
    assert (Hmk : m0 mod 2 ^ k = 0).
    { rewrite Z.rem_mul_r in Hmod by lia.
      pose proof (Z.mod_pos_bound m0 (2 ^ k) Hp).
      pose proof (Z.mod_pos_bound (m0 / 2 ^ k) 2 ltac:(lia)). nia. }
    destruct (Hrs Hmk) as [Hr Hs].
    rewrite H2, H3, Hr, Hs. split; [|reflexivity].
    rewrite Hm. rewrite Z.rem_mul_r in Hmod by lia.
    rewrite Hmk in Hmod.
    assert (Hev : (m0 / 2 ^ k) mod 2 = 0).
    { pose proof (Z.mod_pos_bound (m0 / 2 ^ k) 2 ltac:(lia)). nia. }
    rewrite <- Z.negb_even. rewrite Zeven_mod, Hev. reflexivity.
Qed.

Lemma shr_exact_spec (m0 e n : Z) :
  0 <= m0 -> 0 <= n ->
  let '(st, e') := shr (shr_record_of_loc m0 loc_Exact) e n in
  e' = e + n /\ shifted m0 n st.
Proof.
  intros Hm0 Hn. unfold shr. destruct n as [|p|p]; try lia.
  - split; [lia|]. split; simpl.
    + now rewrite Z.div_1_r.
    + auto.
  - split; [reflexivity|].
    apply (iter_pos_invariant shr_1 (shifted m0)
             (fun k x Hk => shifted_step m0 k x Hm0 Hk) p 0); [lia|].
    split; simpl; [now rewrite Z.div_1_r | auto].
Qed.

Lemma round_nearest_even_bounds (m : Z) (st : shr_record) :
  shr_m st = m ->
  m <= round_nearest_even m (loc_of_shr_record st) <= m + 1
  /\ (shr_r st = false -> shr_s st = false ->
      round_nearest_even m (loc_of_shr_record st) = m).
Proof.
  destruct st as [m' r s]. simpl. intros ->.
  destruct r, s; simpl; try (destruct (Z.even m)); split; intros; try lia; discriminate.
Qed.

(** *** Renormalization after rounding *)

Lemma fexp_eq (e : Z) : fexp prec emax e = Z.max (e - 53) (-1074).
Proof. reflexivity. Qed.

Lemma shr_nonpos (st : shr_record) (e n : Z) : n <= 0 -> shr st e n = (st, e).
Proof. destruct n; try reflexivity. lia. Qed.

Lemma renormalize (m E : Z) :
  -1074 <= E -> 0 <= m <= 2 ^ 53 -> (E = -1074 \/ 2 ^ 52 <= m) ->
  exists st e2,
    shr_fexp prec emax m E loc_Exact = (st, e2)
    /\ ((m = 0 /\ shr_m st = 0)
        \/ exists q, shr_m st = Z.pos q
             /\ scaled (Z.pos q) e2 = scaled m E
             /\ Z.pos (digits2_pos q) <= 53
             /\ (e2 = -1074 \/ Z.pos (digits2_pos q) = 53)
             /\ -1074 <= e2).
Proof.
  intros HE Hm Hn. unfold shr_fexp. rewrite fexp_eq.
  destruct (Z.eq_dec m (2 ^ 53)) as [->|Hne].
  - (* the mantissa overflowed: one more shift *)
    change (Zdigits2 (2 ^ 53)) with 54.
    replace (Z.max (54 + E - 53) (-1074) - E) with 1 by lia.
    eexists _, _. split; [reflexivity|]. right.
    exists (2 ^ 52)%positive. simpl shr_m.
    split; [reflexivity|]. split.
    + unfold scaled. replace (E + 1 + bias) with (1 + (E + bias)) by lia.
      rewrite Z.pow_add_r by (unfold bias; lia).
      change (Z.pos (2 ^ 52)) with (2 ^ 52). change (2 ^ 53) with (2 ^ 52 * 2 ^ 1). ring.
    + change (Z.pos (digits2_pos (2 ^ 52))) with 53. lia.
  - destruct m as [|q|q]; try lia.
    + (* zero *)
      change (Zdigits2 0) with 0.
      rewrite shr_nonpos by lia. eexists _, _. split; [reflexivity|]. left. auto.
    + assert (Hq : Z.pos q < 2 ^ 53) by lia.
      assert (Hd : Z.pos (digits2_pos q) <= 53) by (apply digits2_pos_le; lia).
      change (Zdigits2 (Z.pos q)) with (Z.pos (digits2_pos q)).
      rewrite shr_nonpos by lia. eexists _, _. split; [reflexivity|]. right.
      exists q. simpl shr_m. repeat split; try lia.
      destruct Hn as [->|Hn]; [now left|right].
      pose proof (digits2_pos_ge q 52 ltac:(lia) Hn). lia.
Qed.

(** *** Rounding an exact positive value: bounded by any representable bound *)

Lemma scaled_split (m e n : Z) :
  0 <= n -> - bias <= e -> scaled m (e + n) = m * 2 ^ n * 2 ^ (e + bias).
Proof.
  intros Hn He. unfold scaled.
  replace (e + n + bias) with (n + (e + bias)) by lia.
  rewrite Z.pow_add_r by lia. ring.
Qed.

Lemma round_aux_exact_ub (mx : positive) (ex : Z) (mg : positive) (eg : Z) :
  - bias <= ex ->
  ex <= fexp prec emax (Z.pos (digits2_pos mx) + ex) ->
  bounded prec emax mg eg = true ->
  scaled (Z.pos mx) ex <= scaled (Z.pos mg) eg ->
  bounded_by (binary_round_aux prec emax false (Z.pos mx) ex loc_Exact)
    (scaled (Z.pos mg) eg).
Proof.
  intros Hex Hn Hg HG.
  set (G := scaled (Z.pos mg) eg) in *.
  set (D := Z.pos (digits2_pos mx)) in *.
  set (E := fexp prec emax (D + ex)) in *.
  set (n := E - ex).
  assert (HE : E = Z.max (D + ex - 53) (-1074)) by reflexivity.
  assert (Hn0 : 0 <= n) by (unfold n; lia).
  pose proof (digits2_pos_bounds mx) as [HDl HDu]. fold D in HDl, HDu.
  assert (HD1 : 1 <= D) by (unfold D; lia).
  apply bounded_inv in Hg as (Heg & Hdg & Hcg).
  pose proof (digits2_pos_bounds mg) as [Hgl Hgu].
  (* first shift *)
  unfold binary_round_aux.
  change (shr_fexp prec emax (Z.pos mx) ex loc_Exact)
    with (shr (shr_record_of_loc (Z.pos mx) loc_Exact) ex n).
  pose proof (shr_exact_spec (Z.pos mx) ex n ltac:(lia) Hn0) as Hshr.
  destruct (shr (shr_record_of_loc (Z.pos mx) loc_Exact) ex n) as [st e1].
  destruct Hshr as [-> [Hm1 Hex1]].
  replace (ex + n) with E by (unfold n; lia).
  set (m1 := shr_m st) in *.
  set (N := 2 ^ n) in *.
  set (P := 2 ^ (ex + bias)).
  assert (HN : 0 < N) by (apply pow2_pos; lia).
  assert (HP : 0 < P) by (apply pow2_pos; lia).
  pose proof (Z.div_mod (Z.pos mx) N ltac:(lia)) as Hdm.
  pose proof (Z.mod_pos_bound (Z.pos mx) N HN) as Hrem.
  rewrite <- Hm1 in Hdm.
  assert (Hm1nn : 0 <= m1) by (rewrite Hm1; apply Z.div_pos; lia).
  (* the truncated mantissa has at most 53 digits *)
  assert (Hm1u : m1 < 2 ^ 53).
  { rewrite Hm1. apply Z.div_lt_upper_bound; [lia|].
    unfold N. rewrite <- Z.pow_add_r by lia.
    eapply Z.lt_le_trans; [exact HDu|]. apply pow2_le. lia. }
  assert (Hm1l : E = -1074 \/ 2 ^ 52 <= m1).
  { destruct (Z.eq_dec E (-1074)) as [|HEn]; [now left|right].
    rewrite Hm1. apply Z.div_le_lower_bound; [lia|].
    unfold N. rewrite <- Z.pow_add_r by lia.
    eapply Z.le_trans; [|exact HDl]. apply pow2_le. lia. }
  (* rounding *)
  destruct (round_nearest_even_bounds m1 st eq_refl) as [Hr1 Hr2].
  set (m2 := round_nearest_even m1 (loc_of_shr_record st)) in *.
  assert (Hval1 : scaled m1 E = m1 * N * P).
  { replace E with (ex + n) by (unfold n; lia). now apply scaled_split. }
  assert (Hval2 : scaled m2 E = m2 * N * P).
  { replace E with (ex + n) by (unfold n; lia). now apply scaled_split. }
  assert (HGx : Z.pos mx * P <= G) by exact HG.
  (* the rounded value does not pass the bound *)
  assert (VAL : scaled m2 E <= G).
  { rewrite Hval2.
    destruct (Z.eq_dec (Z.pos mx mod N) 0) as [Hz|Hnz].
    - destruct (Hex1 Hz) as [Hr Hs]. rewrite (Hr2 Hr Hs).
      eapply Z.le_trans; [|exact HGx].
      apply Z.mul_le_mono_nonneg_r; lia.
    - assert (Hstrict : m1 * N < Z.pos mx) by lia.
      destruct (Z_le_gt_dec E eg) as [Hle|Hgt].
      + (* the bound is on the grid of the result *)
        assert (HGs : G = Z.pos mg * 2 ^ (eg - E) * N * P).
        { unfold G, scaled, N, P.
          replace (eg + bias) with ((eg - E) + (n + (ex + bias))) by (unfold n; lia).
          rewrite !Z.pow_add_r by lia. ring. }
        set (t := Z.pos mg * 2 ^ (eg - E)) in *.
        assert (Ht : m1 < t).
        { apply (Z.mul_lt_mono_pos_r (N * P)); [lia|].
          replace (t * (N * P)) with G by (rewrite HGs; ring).
          eapply Z.lt_le_trans; [|exact HGx].
          replace (m1 * (N * P)) with (m1 * N * P) by ring.
          apply Z.mul_lt_mono_pos_r; lia. }
        rewrite HGs. apply Z.mul_le_mono_nonneg_r; [lia|].
        apply Z.mul_le_mono_nonneg_r; lia.
      + (* the bound has a smaller exponent: it would be too small *)
        exfalso.
        assert (Hm1big : 2 ^ 52 <= m1) by lia.
        set (Q := 2 ^ (eg + bias)).
        assert (HQ : 0 < Q) by (apply pow2_pos; unfold bias; lia).
        assert (HNP : 2 * Q <= N * P).
        { unfold N, P, Q. rewrite <- Z.pow_add_r by lia.
          replace (n + (ex + bias)) with (E + bias) by (unfold n; lia).
          change 2 with (2 ^ 1) at 1. rewrite <- Z.pow_add_r by (unfold bias; lia).
          apply pow2_le. unfold bias. lia. }
        assert (Hmg : Z.pos mg < 2 ^ 53).
        { eapply Z.lt_le_trans; [exact Hgu|]. apply pow2_le. lia. }
        assert (HGlt : G < 2 ^ 53 * Q).
        { unfold G, scaled. fold Q. apply Z.mul_lt_mono_pos_r; lia. }
        assert (Hlow : 2 ^ 52 * (2 * Q) <= m1 * N * P).
        { replace (m1 * N * P) with (m1 * (N * P)) by ring.
          apply Z.mul_le_mono_nonneg; lia. }
        assert (m1 * N * P <= G).
        { eapply Z.le_trans; [|exact HGx]. apply Z.mul_le_mono_nonneg_r; lia. }
        change (2 ^ 53) with (2 ^ 52 * 2) in HGlt. lia. }
  (* renormalization *)
  destruct (renormalize m2 E ltac:(lia) ltac:(lia) ltac:(lia)) as (st2 & e2 & Heq & Hcase).
  rewrite Heq.
  destruct Hcase as [[_ ->]|(q & -> & Hq & Hdq & Hcq & He2)]; [exact I|].
  rewrite <- Hq in VAL.
  destruct (Z.leb_spec e2 (emax - prec)) as [Hle|Hgt]; unfold emax, prec in *.
  - split; [apply bounded_intro; lia | exact VAL].
  - exfalso.
    assert (Hdq53 : Z.pos (digits2_pos q) = 53) by lia.
    pose proof (digits2_pos_bounds q) as [Hql _]. rewrite Hdq53 in Hql.
    assert (Hmg : Z.pos mg < 2 ^ 53).
    { eapply Z.lt_le_trans; [exact Hgu|]. apply pow2_le. lia. }
    assert (H1 : 2 ^ (53 - 1) * 2 ^ (972 + bias) <= scaled (Z.pos q) e2).
    { unfold scaled. apply Z.mul_le_mono_nonneg;
        first [ lia
              | apply Z.lt_le_incl, pow2_pos; unfold bias; lia
              | apply pow2_le; unfold bias; lia ]. }
    assert (H2 : G < 2 ^ 53 * 2 ^ (971 + bias)).
    { unfold G, scaled.
      apply Z.le_lt_trans with (Z.pos mg * 2 ^ (971 + bias)).
      - apply Z.mul_le_mono_nonneg_l; [lia|]. apply pow2_le. unfold bias. lia.
      - apply Z.mul_lt_mono_pos_r; [|lia]. apply pow2_pos. unfold bias. lia. }
    assert (H3 : 2 ^ (53 - 1) * 2 ^ (972 + bias) = 2 ^ 53 * 2 ^ (971 + bias)).
    { rewrite <- !Z.pow_add_r by (unfold bias; lia). f_equal. }
    lia.
Qed.

(** *** Non-negative valid numbers *)

Lemma bounded_by_valid (r : spec_float) (G : Z) : bounded_by r G -> nonneg_valid r.
Proof. destruct r as [s|s| |[] m e]; simpl; tauto. Qed.

Lemma bounded_by_val (r : spec_float) (G : Z) : 0 <= G -> bounded_by r G -> SFval r <= G.
Proof. destruct r as [s|s| |[] m e]; simpl; tauto. Qed.

Lemma nonneg_valid_val (f : spec_float) : nonneg_valid f -> 0 <= SFval f.
Proof.
  destruct f as [s|s| |[] m e]; simpl; try tauto; try lia.
  intros H. apply bounded_inv in H. apply Z.lt_le_incl, scaled_pos. unfold bias. lia.
Qed.

Lemma nonneg_valid_bounded_by (f : spec_float) (G : Z) :
  nonneg_valid f -> SFval f <= G -> bounded_by f G.
Proof. destruct f as [s|s| |[] m e]; simpl; tauto. Qed.

(** The comparison of two non-negative numbers of the format is the
    comparison of their values. *)
Lemma SFleb_val (a b : spec_float) :
  nonneg_valid a -> nonneg_valid b -> SFleb a b = true <-> SFval a <= SFval b.
Proof.
  intros Ha Hb.
  destruct a as [sa|sa| |[] ma ea], b as [sb|sb| |[] mb eb]; simpl in Ha, Hb; try tauto.
  - cbn [SFleb SFcompare SFval]. split; [lia|reflexivity].
  - pose proof (bounded_inv _ _ Hb). pose proof (scaled_pos mb eb ltac:(unfold bias; lia)).
    cbn [SFleb SFcompare SFval]. split; [lia|reflexivity].
  - pose proof (bounded_inv _ _ Ha). pose proof (scaled_pos ma ea ltac:(unfold bias; lia)).
    cbn [SFleb SFcompare SFval]. split; [discriminate|lia].
  - unfold SFleb. rewrite (compare_canonical _ _ _ _ Ha Hb). cbn [SFval].
    destruct (Z.compare_spec (scaled (Z.pos ma) ea) (scaled (Z.pos mb) eb));
      split; intros; try reflexivity; try lia; discriminate.
Qed.

Lemma SFleb_zero_nonneg (r : spec_float) :
  nonneg_valid r -> SFleb (S754_zero false) r = true.
Proof. destruct r as [s|s| |[] m e]; simpl; try tauto; reflexivity. Qed.

(** *** Multiplication *)

Lemma digits2_pos_mul (a b : positive) :
  Z.pos (digits2_pos a) + Z.pos (digits2_pos b) - 1 <= Z.pos (digits2_pos (a * b)).
Proof.
  pose proof (digits2_pos_bounds a) as [Ha _].
  pose proof (digits2_pos_bounds b) as [Hb _].
  set (da := Z.pos (digits2_pos a)) in *. set (db := Z.pos (digits2_pos b)) in *.
  assert (H1 : 1 <= da) by (unfold da; lia). assert (H2 : 1 <= db) by (unfold db; lia).
  assert (H : 2 ^ (da + db - 2) <= Z.pos (a * b)).
  { rewrite Pos2Z.inj_mul. replace (da + db - 2) with ((da - 1) + (db - 1)) by lia.
    rewrite Z.pow_add_r by lia.
    apply Z.mul_le_mono_nonneg; try lia; apply Z.lt_le_incl, pow2_pos; lia. }
  pose proof (digits2_pos_ge (a * b) (da + db - 2) ltac:(lia) H). lia.
Qed.

Lemma SFmul_ub (x k g : spec_float) :
  nonneg_valid x -> nonneg_valid k -> nonneg_valid g ->
  SFval x * SFval k <= SFval g * 2 ^ bias ->
  bounded_by (SFmul prec emax x k) (SFval g).
Proof.
  intros Hx Hk Hg H.
  destruct x as [sx|sx| |[] mx ex], k as [sk|sk| |[] mk ek]; simpl in Hx, Hk; try tauto;
    try exact I.
  pose proof (bounded_inv _ _ Hx) as (Hex & Hdx & Hcx).
  pose proof (bounded_inv _ _ Hk) as (Hek & Hdk & Hck).
  assert (Hprod : scaled (Z.pos (mx * mk)) (ex + ek) * 2 ^ bias
                  = scaled (Z.pos mx) ex * scaled (Z.pos mk) ek).
  { unfold scaled. rewrite Pos2Z.inj_mul.
    replace (ex + ek + bias) with ((ex + bias) + ek) by lia.
    replace (Z.pos mx * Z.pos mk * 2 ^ (ex + bias + ek) * 2 ^ bias)
      with (Z.pos mx * Z.pos mk * (2 ^ (ex + bias + ek) * 2 ^ bias)) by ring.
    rewrite <- Z.pow_add_r by (unfold bias; lia).
    replace (ex + bias + ek + bias) with ((ex + bias) + (ek + bias)) by lia.
    rewrite Z.pow_add_r by (unfold bias; lia). ring. }
  assert (Hpos : 0 < scaled (Z.pos (mx * mk)) (ex + ek))
    by (apply scaled_pos; unfold bias; lia).
  assert (Hb : 0 < 2 ^ bias) by (apply pow2_pos; unfold bias; lia).
  cbn [SFval] in H. rewrite <- Hprod in H.
  apply Z.mul_le_mono_pos_r in H; [|exact Hb].
  destruct g as [sg|sg| |[] mg eg]; simpl in Hg; try tauto; cbn [SFval] in H; try lia.
  cbn [SFmul xorb]. apply round_aux_exact_ub; try assumption.
  - unfold bias. lia.
  - rewrite fexp_eq. pose proof (digits2_pos_mul mx mk).
    assert (1 <= Z.pos (digits2_pos mx)) by lia.
    assert (1 <= Z.pos (digits2_pos mk)) by lia. lia.
Qed.

(** *** Alignment and normalization *)

Lemma pos_iter_xO (m d : positive) :
  Z.pos (Pos.iter xO m d) = Z.pos m * 2 ^ Z.pos d
  /\ Z.pos (digits2_pos (Pos.iter xO m d)) = Z.pos (digits2_pos m) + Z.pos d.
Proof.
  induction d as [|d IH] using Pos.peano_ind.
  - simpl. split; lia.
  - rewrite Pos.iter_succ. destruct IH as [IH1 IH2].
    cbn [digits2_pos]. rewrite Pos2Z.inj_xO, IH1, !Pos2Z.inj_succ, IH2.
    rewrite Z.pow_succ_r by lia. split; ring.
Qed.

Lemma shl_align_spec (m : positive) (e e' : Z) :
  e' <= e ->
  let '(m', e'') := shl_align m e e' in
  e'' = e' /\ Z.pos m' = Z.pos m * 2 ^ (e - e')
  /\ Z.pos (digits2_pos m') = Z.pos (digits2_pos m) + (e - e').
Proof.
  intros H. unfold shl_align. destruct (e' - e) as [|d|d] eqn:Hd; try lia.
  - assert (e' = e) by lia. subst. rewrite Z.sub_diag. simpl. repeat split; lia.
  - destruct (pos_iter_xO m d) as [H1 H2].
    replace (e - e') with (Z.pos d) by lia. auto.
Qed.

Lemma shl_align_id (m : positive) (e e' : Z) : e <= e' -> shl_align m e e' = (m, e).
Proof. intros H. unfold shl_align. destruct (e' - e) eqn:Hd; try reflexivity. lia. Qed.

Lemma binary_round_ub (m : positive) (e : Z) (mg : positive) (eg : Z) :
  -1074 <= e ->
  bounded prec emax mg eg = true ->
  scaled (Z.pos m) e <= scaled (Z.pos mg) eg ->
  bounded_by (binary_round prec emax false m e) (scaled (Z.pos mg) eg).
Proof.
  intros He Hg H. unfold binary_round.
  set (E := fexp prec emax (Z.pos (digits2_pos m) + e)).
  assert (HE : E = Z.max (Z.pos (digits2_pos m) + e - 53) (-1074)) by reflexivity.
  destruct (Z_le_gt_dec e E) as [Hle|Hgt].
  - rewrite shl_align_id by assumption.
    apply round_aux_exact_ub; try assumption. unfold bias. lia.
  - pose proof (shl_align_spec m e E ltac:(lia)) as Hs.
    destruct (shl_align m e E) as [mz ez]. destruct Hs as (-> & Hmz & Hdz).
    assert (Hsc : scaled (Z.pos mz) E = scaled (Z.pos m) e).
    { unfold scaled. rewrite Hmz.
      replace (e + bias) with ((e - E) + (E + bias)) by lia.
      rewrite (Z.pow_add_r 2 (e - E) (E + bias)) by (unfold bias; lia). ring. }
    apply round_aux_exact_ub; try assumption.
    + unfold bias. lia.
    + rewrite Hdz. replace (Z.pos (digits2_pos m) + (e - E) + E)
        with (Z.pos (digits2_pos m) + e) by lia. fold E. lia.
    + now rewrite Hsc.
Qed.

Lemma binary_normalize_ub (s : Z) (e : Z) (g : spec_float) :
  -1074 <= e -> 0 <= s -> nonneg_valid g ->
  s * 2 ^ (e + bias) <= SFval g ->
  bounded_by (binary_normalize prec emax s e false) (SFval g).
Proof.
  intros He Hs Hg H. destruct s as [|p|p]; try lia; [exact I|].
  cbn [binary_normalize].
  assert (Hp : 0 < scaled (Z.pos p) e) by (apply scaled_pos; unfold bias; lia).
  destruct g as [sg|sg| |[] mg eg]; simpl in Hg; try tauto;
    cbn [SFval] in *; unfold scaled in Hp; try lia.
  now apply binary_round_ub.
Qed.

(** The mantissa of a number aligned on a smaller exponent. *)
Lemma aligned_val (m : positive) (e ez : Z) :
  -1074 <= ez <= e ->
  Z.pos (fst (shl_align m e ez)) * 2 ^ (ez + bias) = scaled (Z.pos m) e.
Proof.
  intros H. pose proof (shl_align_spec m e ez ltac:(lia)) as Hs.
  destruct (shl_align m e ez) as [m' e']. destruct Hs as (_ & Hm & _).
  cbn [fst]. rewrite Hm.
  unfold scaled. replace (e + bias) with ((e - ez) + (ez + bias)) by lia.
  rewrite (Z.pow_add_r 2 (e - ez) (ez + bias)) by (unfold bias; lia). ring.
Qed.

Lemma SFadd_ub (x y g : spec_float) :
  nonneg_valid x -> nonneg_valid y -> nonneg_valid g ->
  SFval x + SFval y <= SFval g ->
  bounded_by (SFadd prec emax x y) (SFval g).
Proof.
  intros Hx Hy Hg H.
  pose proof (nonneg_valid_val x Hx) as Hvx.
  pose proof (nonneg_valid_val y Hy) as Hvy.
  destruct x as [sx|sx| |[] mx ex], y as [sy|sy| |[] my ey]; simpl in Hx, Hy; try tauto.
  - cbn [SFadd]. destruct sx, sy; exact I.
  - cbn [SFadd]. apply nonneg_valid_bounded_by; [exact Hy|]. cbn [SFval] in *. lia.
  - cbn [SFadd]. apply nonneg_valid_bounded_by; [exact Hx|]. cbn [SFval] in *. lia.
  - cbn [SFadd cond_Zopp].
    pose proof (bounded_inv _ _ Hx) as (Hex & _).
    pose proof (bounded_inv _ _ Hy) as (Hey & _).
    apply binary_normalize_ub; try assumption; try lia.
    rewrite Z.mul_add_distr_r, !aligned_val by lia. exact H.
Qed.

Lemma SFsub_ub (x y g : spec_float) :
  nonneg_valid x -> nonneg_valid y -> nonneg_valid g ->
  SFval y <= SFval x -> SFval x - SFval y <= SFval g ->
  bounded_by (SFsub prec emax x y) (SFval g).
Proof.
  intros Hx Hy Hg Hyx H.
  pose proof (nonneg_valid_val y Hy) as Hvy.
  destruct x as [sx|sx| |[] mx ex], y as [sy|sy| |[] my ey]; simpl in Hx, Hy; try tauto.
  - cbn [SFsub]. destruct sx, sy; exact I.
  - exfalso. pose proof (bounded_inv _ _ Hy) as (Hey & _).
    pose proof (scaled_pos my ey ltac:(unfold bias; lia)). cbn [SFval] in *. lia.
  - cbn [SFsub]. apply nonneg_valid_bounded_by; [exact Hx|]. cbn [SFval] in *. lia.
  - cbn [SFsub cond_Zopp].
    pose proof (bounded_inv _ _ Hx) as (Hex & _).
    pose proof (bounded_inv _ _ Hy) as (Hey & _).
    assert (Hb : 0 < 2 ^ (Z.min ex ey + bias)) by (apply pow2_pos; unfold bias; lia).
    pose proof (aligned_val mx ex (Z.min ex ey) ltac:(lia)) as Hax.
    pose proof (aligned_val my ey (Z.min ex ey) ltac:(lia)) as Hay.
    cbn [SFval] in *.
    apply binary_normalize_ub; [lia | | assumption | ].
    + rewrite <- Hax, <- Hay in Hyx.
      apply Z.mul_le_mono_pos_r in Hyx; [lia | exact Hb].
    + rewrite Z.mul_sub_distr_r, Hax, Hay. exact H.
Qed.

(** *** Binary64 numbers between zero and a bound *)

Lemma valid_nonneg (f u : spec_float) :
  SpecFloat.valid_binary prec emax f = true -> nonneg_valid u ->
  SFleb (S754_zero false) f = true -> SFleb f u = true -> nonneg_valid f.
Proof.
  intros Hv Hu H0 H1.
  destruct f as [s|[]| |[] m e]; simpl in *; try tauto; try discriminate.
  destruct u as [su|su| |[] mu eu]; simpl in Hu; try tauto; discriminate.
Qed.

Lemma below_of_leb (u x : float) :
  nonneg_valid (Prim2SF u) ->
  (0 <=? x)%float = true -> (x <=? u)%float = true ->
  below (SFval (Prim2SF u)) x.
Proof.
  intros Hu H0 H1. rewrite FloatAxioms.leb_spec in H0, H1.
  assert (Hx : nonneg_valid (Prim2SF x)).
  { apply (valid_nonneg _ (Prim2SF u)); auto. apply Prim2SF_valid. }
  split; [exact Hx|]. now apply SFleb_val.
Qed.

Lemma leb_of_below (u x : float) :
  nonneg_valid (Prim2SF u) -> below (SFval (Prim2SF u)) x ->
  (0 <=? x)%float = true /\ (x <=? u)%float = true.
Proof.
  intros Hu [Hx Hv]. rewrite !FloatAxioms.leb_spec. split.
  - now apply SFleb_zero_nonneg.
  - now apply SFleb_val.
Qed.

Lemma below_bounded_by (x : float) (G : Z) :
  0 <= G -> bounded_by (Prim2SF x) G -> below G x.
Proof.
  intros HG H. split; [now apply bounded_by_valid in H | now apply bounded_by_val].
Qed.

Lemma below_weaken (U V : Z) (x : float) : U <= V -> below U x -> below V x.
Proof. intros H [H1 H2]. split; [assumption | lia]. Qed.

Lemma mul_below (x k g : float) (U : Z) :
  nonneg_valid (Prim2SF k) -> nonneg_valid (Prim2SF g) ->
  U * SFval (Prim2SF k) <= SFval (Prim2SF g) * 2 ^ bias ->
  below U x -> below (SFval (Prim2SF g)) (x * k).
Proof.
  intros Hk Hg HU [Hx Hv].
  apply below_bounded_by; [now apply nonneg_valid_val|].
  rewrite FloatAxioms.mul_spec. apply SFmul_ub; try assumption.
  eapply Z.le_trans; [|exact HU].
  apply Z.mul_le_mono_nonneg_r; [now apply nonneg_valid_val | exact Hv].
Qed.

Lemma add_below (x y g : float) (U V : Z) :
  nonneg_valid (Prim2SF g) -> U + V <= SFval (Prim2SF g) ->
  below U x -> below V y -> below (SFval (Prim2SF g)) (x + y).
Proof.
  intros Hg HU [Hx Hvx] [Hy Hvy].
  apply below_bounded_by; [now apply nonneg_valid_val|].
  rewrite FloatAxioms.add_spec. apply SFadd_ub; try assumption. lia.
Qed.

Lemma sub_below (x y : float) :
  nonneg_valid (Prim2SF x) -> below (SFval (Prim2SF x)) y ->
  below (SFval (Prim2SF x)) (x - y).
Proof.
  intros Hx [Hy Hv].
  apply below_bounded_by; [now apply nonneg_valid_val|].
  rewrite FloatAxioms.sub_spec. apply SFsub_ub; try assumption.
  pose proof (nonneg_valid_val _ Hy). lia.
Qed.

(** *** Checks by enumeration *)

Lemma forallb_Zrange (chk : Z -> bool) (a : Z) (len : nat) (n : Z) :
  List.forallb chk (Zrange a len) = true ->
  a <= n < a + Z.of_nat len -> chk n = true.
Proof.
  intros H Hn. rewrite List.forallb_forall in H. apply H.
  unfold Zrange. apply List.in_map_iff. exists (Z.to_nat (n - a)). split; [lia|].
  apply List.in_seq. lia.
Qed.

Lemma demand_part_range (dem : Z) :
  0 <= dem <= 100 -> in_0_04 (PyNum.true_div dem 100 * 0.4) = true.
Proof.
  intros H.
  apply (forallb_Zrange (fun n => in_0_04 (PyNum.true_div n 100 * 0.4)) 0 101); [|lia].
  vm_compute. reflexivity.
Qed.

Lemma tenth_range (n : Z) :
  1 <= n <= 1000 -> in_0_100 (PyNum.of_int n / 10) = true.
Proof.
  intros H.
  apply (forallb_Zrange (fun n => in_0_100 (PyNum.of_int n / 10)) 1 1000); [|lia].
  vm_compute. reflexivity.
Qed.

(** *** The constants *)

Lemma const_valid :
  nonneg_valid (Prim2SF 1) /\ nonneg_valid (Prim2SF 0.6) /\ nonneg_valid (Prim2SF 0.4)
  /\ nonneg_valid (Prim2SF 100) /\ nonneg_valid (Prim2SF 10) /\ nonneg_valid (Prim2SF 1000).
Proof. repeat split; vm_compute; reflexivity. Qed.

Lemma const_values :
  SFval (Prim2SF 1) * SFval (Prim2SF 0.6) <= SFval (Prim2SF 0.6) * 2 ^ bias
  /\ SFval (Prim2SF 0.6) + SFval (Prim2SF 0.4) <= SFval (Prim2SF 1)
  /\ SFval (Prim2SF 1) * SFval (Prim2SF 100) <= SFval (Prim2SF 100) * 2 ^ bias
  /\ SFval (Prim2SF 100) * SFval (Prim2SF 10) <= SFval (Prim2SF 1000) * 2 ^ bias
  /\ SFval (Prim2SF 1000) = 1000 * 2 ^ bias.
Proof. repeat split; try (apply Z.leb_le); vm_compute; reflexivity. Qed.

(** *** Rounding to an integer *)

Lemma rint_cases (t : float) :
  below (1000 * 2 ^ bias) t ->
  (exists s, Prim2SF t = S754_zero s /\ PyNum.rint t = t)
  \/ PyNum.rint t = zero
  \/ exists n, 1 <= n <= 1000 /\ PyNum.rint t = PyNum.of_int n.
Proof.
  intros [Hv Hb]. unfold PyNum.rint.
  destruct (Prim2SF t) as [s|s| |[] m e] eqn:Et; simpl in Hv; try tauto.
  { left. eauto. }
  right. cbn [SFval] in Hb. unfold scaled in Hb.
  apply bounded_inv in Hv as (He & Hd & Hc).
  pose proof (digits2_pos_bounds m) as [Hml _].
  assert (HB : 0 < 2 ^ bias) by (apply pow2_pos; unfold bias; lia).
  destruct (Z.leb_spec 0 e) as [Hpos|Hneg].
  - (* an exponent that is not negative: the number is at least 2^52 *)
    exfalso.
    assert (Hd53 : Z.pos (digits2_pos m) = 53) by lia. rewrite Hd53 in Hml.
    assert (H1 : 2 ^ bias <= 2 ^ (e + bias)) by (apply pow2_le; unfold bias; lia).
    assert (H2 : 2 ^ (53 - 1) * 2 ^ bias <= Z.pos m * 2 ^ (e + bias)).
    { apply Z.mul_le_mono_nonneg; lia. }
    change (2 ^ (53 - 1)) with 4503599627370496 in H2. lia.
  - set (k := - e) in *.
    assert (Hk : 0 < k) by (unfold k; lia).
    set (K := 2 ^ k).
    assert (HK : 0 < K) by (apply pow2_pos; lia).
    set (X := 2 ^ (e + bias)) in *.
    assert (HX : 0 < X) by (apply pow2_pos; unfold bias; lia).
    assert (HKX : 2 ^ bias = K * X).
    { unfold K, X. rewrite <- Z.pow_add_r by (unfold bias; lia). f_equal. unfold k. lia. }
    assert (Hm : Z.pos m <= 1000 * K).
    { apply (Z.mul_le_mono_pos_r _ _ X); [exact HX|].
      rewrite HKX in Hb. lia. }
    rewrite Z.shiftr_div_pow2 by lia. fold K.
    rewrite Z.shiftl_mul_pow2 by lia. fold K.
    rewrite Z.shiftl_mul_pow2 by lia. rewrite Z.mul_1_l.
    set (q := Z.pos m / K).
    pose proof (Z.div_mod (Z.pos m) K ltac:(lia)) as Hdm. fold q in Hdm.
    pose proof (Z.mod_pos_bound (Z.pos m) K HK) as Hr.
    set (r := Z.pos m - q * K).
    assert (Hrr : r = Z.pos m mod K) by (unfold r; lia).
    assert (Hq0 : 0 <= q) by (apply Z.div_pos; lia).
    assert (Hq : q <= 1000) by (apply Z.div_le_upper_bound; lia).
    assert (Hq1000 : q = 1000 -> r = 0) by (intros; nia).
    assert (Hhalf : 0 < 2 ^ (k - 1)) by (apply pow2_pos; lia).
    set (n := if r <? 2 ^ (k - 1) then q
              else if 2 ^ (k - 1) <? r then q + 1
              else if Z.even q then q else q + 1).
    assert (Hn : 0 <= n <= 1000).
    { unfold n. destruct (Z.ltb_spec r (2 ^ (k - 1))); [lia|].
      destruct (Z.ltb_spec (2 ^ (k - 1)) r); [lia|].
      destruct (Z.even q); lia. }
    destruct (Z.eqb_spec n 0) as [Hz|Hnz]; [now left|].
    right. exists n. split; [lia|reflexivity].
Qed.

(** *** The score *)

Lemma div10_of_zero (t : float) (s : bool) :
  Prim2SF t = S754_zero s -> in_0_100 (t / 10) = true.
Proof.
  intros H. unfold in_0_100. rewrite !FloatAxioms.leb_spec, FloatAxioms.div_spec, H.
  destruct s; vm_compute; reflexivity.
Qed.

Lemma round1_range (x : float) :
  below (SFval (Prim2SF 100)) x -> in_0_100 (PyNum.round1 x) = true.
Proof.
  intros Hx. unfold PyNum.round1.
  destruct const_valid as (_ & _ & _ & _ & H10 & H1000).
  destruct const_values as (_ & _ & _ & Ht & Hv1000).
  assert (Hxt : below (1000 * 2 ^ bias) (x * 10)).
  { rewrite <- Hv1000. now apply (mul_below x 10 1000 (SFval (Prim2SF 100))). }
  destruct (rint_cases _ Hxt) as [(s & Hs & ->)|[->|(n & Hn & ->)]].
  - now apply (div10_of_zero _ s).
  - vm_compute. reflexivity.
  - now apply tenth_range.
Qed.

Lemma match_score_range (d : float) (dem : Z) :
  (0 <=? d)%float = true -> (d <=? 1)%float = true -> 0 <= dem <= 100 ->
  in_0_100 (PyNum.round1 (combined_score (1 - d) dem * 100)) = true.
Proof.
  intros Hd0 Hd1 Hdem.
  destruct const_valid as (H1 & H06 & H04 & H100 & H10 & H1000).
  destruct const_values as (Ha & Hc & Hm & Ht & Hv1000).
  pose proof (demand_part_range dem Hdem) as Hb.
  apply andb_prop in Hb as [Hb0 Hb1].
  (* the similarity *)
  assert (Hs : below (SFval (Prim2SF 1)) (1 - d)).
  { apply sub_below; [exact H1|]. now apply below_of_leb. }
  (* the two terms *)
  assert (Hx : below (SFval (Prim2SF 0.6)) ((1 - d) * 0.6)).
  { now apply (mul_below _ _ _ (SFval (Prim2SF 1))). }
  assert (Hy : below (SFval (Prim2SF 0.4)) (PyNum.true_div dem 100 * 0.4)).
  { now apply below_of_leb. }
  (* their sum, as a percentage *)
  assert (Hsum : below (SFval (Prim2SF 1)) (combined_score (1 - d) dem)).
  { unfold combined_score.
    now apply (add_below _ _ _ (SFval (Prim2SF 0.6)) (SFval (Prim2SF 0.4))). }
  assert (Hpct : below (SFval (Prim2SF 100)) (combined_score (1 - d) dem * 100)).
  { now apply (mul_below _ _ _ (SFval (Prim2SF 1))). }
  now apply round1_range.
Qed.

(** ** The bounds of the score *)

Lemma kneighbors_In (cosine_distance : list string -> string -> nat -> float)
    (e : engine) (q : string) (k : nat) (ns : list (nat * float)) (idx : nat) (d : float) :
  kneighbors cosine_distance e q k = Ok ns -> In (idx, d) ns ->
  d = cosine_distance (skills_data e) q idx.
Proof.
  unfold kneighbors. destruct (_ <? _)%nat; [discriminate|].
  intros [= <-] Hin.
  apply list_elem_of_In, subseteq_take, list_elem_of_In in Hin.
  apply stable_sort_In, in_map_iff in Hin as (i & [= -> ->] & _). reflexivity.
Qed.

Lemma similarity_range (d : float) :
  (0 <=? d)%float = true -> (d <=? 1)%float = true ->
  (0 <=? 1 - d)%float = true /\ (1 - d <=? 1)%float = true.
Proof.
  intros H0 H1. destruct const_valid as (Hone & _).
  apply leb_of_below; [exact Hone|].
  apply sub_below; [exact Hone|]. now apply below_of_leb.
Qed.

(** C8. Let every demand score of the catalog lie between 0 and 100 and
    every cosine distance the index computes lie between 0 and 1, as it does
    between vectors without negative entries. Then the similarity [1 - d]
    lies between 0 and 1, and every recommendation of a returned set has a
    [match_score] between 0 and 100, bounds included. The numbers are
    binary64: the bounds hold of the rounded operations. *)
Theorem C8_match_score_bounds
    (cosine_distance : list string -> string -> nat -> float)
    (e : engine) (p : gmap string value) (rs : recommendation_set) :
  (forall r s, In r (job_roles e) -> demand_score r = Some s -> 0 <= s <= 100) ->
  (forall q i,
     (0 <=? cosine_distance (skills_data e) q i)%float = true
     /\ (cosine_distance (skills_data e) q i <=? 1)%float = true) ->
  compute_recommendations cosine_distance e p = Ok rs ->
  (forall q i,
     (0 <=? 1 - cosine_distance (skills_data e) q i)%float = true
     /\ (1 - cosine_distance (skills_data e) q i <=? 1)%float = true)
  /\ Forall (fun rec => (0 <=? match_score rec)%float = true
                        /\ (match_score rec <=? 100)%float = true)
       (recommendations rs).
Proof.
  intros Hcat Hdist H. split.
  { intros q i. destruct (Hdist q i). now apply similarity_range. }
  apply Forall_forall. intros rec Hin. apply list_elem_of_In in Hin.
  destruct (returned_from_neighbor _ _ _ _ _ H Hin)
    as (l & ns & idx & d & _ & Hns & Hn & Hrec).
  apply (kneighbors_In _ _ _ _ _ _ _ Hns) in Hn. subst d.
  apply recommend_one_Ok in Hrec as (r & lvl & m & Hr & _ & _ & _ & _ & _ & Hs).
  destruct (Hdist (PyStr.join ", " (_normalize_skills l)) idx) as [Hd0 Hd1].
  assert (Hdem : 0 <= default 50 (demand_score r) <= 100).
  { destruct (demand_score r) as [s|] eqn:Es; simpl; [|lia].
    apply (Hcat r s); [|exact Es]. now apply nth_error_In in Hr. }
  pose proof (match_score_range _ _ Hd0 Hd1 Hdem) as Hrange.
  rewrite <- Hs in Hrange. now apply andb_prop in Hrange.
Qed.

(** The catalog and the profile of the tests, with rows at the distances
    0.25, 0.5 and 1. *)
Lemma C8_match_score_bounds_witness :
  exists rs,
    compute_recommendations table_distance test_engine sample_profile = Ok rs
    /\ List.map match_score (recommendations rs) = [81; 68; 32]%float
    /\ Forall (fun rec => (0 <=? match_score rec)%float = true
                          /\ (match_score rec <=? 100)%float = true)
         (recommendations rs).
Proof.
  assert (H : compute_recommendations table_distance test_engine sample_profile
              = Ok {| recommendations := sample_recommendations;
                      profile := {| education_level := VInt 4; skills_count := 3;
                                    learning_pace := VStr "normal" |} |})
    by (vm_compute; reflexivity).
  eexists. split; [exact H|]. split; [reflexivity|].
  apply (C8_match_score_bounds table_distance test_engine sample_profile _).
  - intros r s [<-|[<-|[<-|[]]]] [= <-]; lia.
  - intros q [|[|i]]; split; reflexivity.
  - exact H.
Defined.

(** ** Numbers that are not NaN *)



























(** ** The ranking of a returned set *)



(** * Further properties of the code *)

(** ** Normalization is idempotent *)


Lemma is_space_lower_char (c : ascii) : PyStr.is_space (PyStr.lower_char c) = PyStr.is_space c.
Proof. destruct c as [[] [] [] [] [] [] [] []]; reflexivity. Qed.


Lemma lower_lstrip (s : string) : PyStr.lower (PyStr.lstrip s) = PyStr.lstrip (PyStr.lower s).
Proof.
  induction s as [|c s IH]; simpl; [reflexivity|].
  rewrite is_space_lower_char. destruct (PyStr.is_space c); [exact IH | reflexivity].
Qed.

Lemma lower_rstrip (s : string) : PyStr.lower (PyStr.rstrip s) = PyStr.rstrip (PyStr.lower s).
Proof.
  induction s as [|c s IH]; simpl; [reflexivity|].
  rewrite <- IH, is_space_lower_char.
  destruct (PyStr.rstrip s) as [|c' r]; simpl; [|reflexivity].
  destruct (PyStr.is_space c); reflexivity.
Qed.

Lemma lower_strip (s : string) : PyStr.lower (PyStr.strip s) = PyStr.strip (PyStr.lower s).
Proof. unfold PyStr.strip. now rewrite lower_rstrip, lower_lstrip. Qed.








(** ** The levels of a pathway, for any target *)

Lemma filter_filter_same {A : Type} (P Q : A -> bool) (l : list A) :
  (forall x, P x = true -> Q x = true) ->
  List.filter P (List.filter Q l) = List.filter P l.
Proof.
  intros H. induction l as [|x l IH]; simpl; [reflexivity|].
  destruct (Q x) eqn:EQ; simpl.
  - now rewrite IH.
  - destruct (P x) eqn:EP; [|exact IH]. rewrite (H x EP) in EQ. discriminate.
Qed.

(** X2. For any current and target level, [_map_to_nsqf_pathway] returns the
    rows of the table whose level is above the current one and at most the
    target, each as often as the table has it, ascending by level, rows of the
    same level in the order of the table; it returns nothing exactly when the
    table has no row in that range, as when the current level has reached the
    target. *)
Theorem X2_map_to_nsqf_pathway_any_target (levels : list nsqf_level) (cur target : Z) :
  let pl := _map_to_nsqf_pathway levels cur target in
  Permutation pl (List.filter (in_level_range cur target) levels)
  /\ StronglySorted (fun x y => level x <= level y) pl
  /\ (forall v, cur < v <= target ->
        List.filter (fun q => level q =? v) pl
        = List.filter (fun q => level q =? v) levels)
  /\ (pl = [] <-> forall q, In q levels -> ~ (cur < level q <= target))
  /\ (target <= cur -> pl = []).
Proof.
  intros pl. unfold pl. rewrite map_to_nsqf_pathway_spec.
  assert (Hperm : Permutation (spec_pathway_levels levels cur target)
                    (List.filter (in_level_range cur target) levels))
    by apply stable_sort_perm.
  assert (Hempty : spec_pathway_levels levels cur target = [] <->
                   forall q, In q levels -> ~ (cur < level q <= target)).
  { split.
    - intros H q Hq Hr.
      assert (Hin : In q (spec_pathway_levels levels cur target))
        by (apply pathway_levels_in_range; auto).
      rewrite H in Hin. destruct Hin.
    - intros H. destruct (spec_pathway_levels levels cur target) as [|q l] eqn:E;
        [reflexivity|exfalso].
      assert (Hin : In q (spec_pathway_levels levels cur target))
        by (rewrite E; now left).
      apply pathway_levels_in_range in Hin as [Hq Hr]. exact (H q Hq Hr). }
  split; [exact Hperm|]. split; [apply pathway_levels_sorted|]. split; [|split].
  - intros v Hv. unfold spec_pathway_levels.
    rewrite stable_sort_filter.
    + apply filter_filter_same. intros q Hq. apply Z.eqb_eq in Hq.
      apply andb_true_intro. split; [apply Z.ltb_lt | apply Z.leb_le]; lia.
    + intros a b Ha Hb. apply Z.eqb_eq in Ha, Hb. apply Z.ltb_ge. lia.
  - exact Hempty.
  - intros Hle. apply Hempty. intros q _ Hr. lia.
Qed.

(** ** The shape of a pathway *)

Lemma In_last_of {A : Type} (l : list A) (x : A) : last_of l = Some x -> In x l.
Proof.
  unfold last_of. induction l as [|y l IH]; [discriminate|].
  destruct l as [|z l]; intros H.
  - injection H as ->. now left.
  - right. apply IH. exact H.
Qed.

(** X3. Whatever the table, the role and the current level, a pathway has two
    to four steps with pairwise different names; the levels of its steps never
    decrease along the pathway and none exceeds 7; a step is either at level
    7 or strictly above the current level; and before any scaling the
    pathway lasts 20, 32 or 48 weeks. *)
Theorem X3_pathway_shape (levels : list nsqf_level) (r : job_role) (cur : Z) :
  let p := _create_learning_pathway levels r cur in
  (2 <= length p <= 4)%nat
  /\ NoDup (List.map step p)
  /\ StronglySorted (fun x y => step_level x <= step_level y) p
  /\ Forall (fun s => step_level s <= 7 /\ (step_level s = 7 \/ cur < step_level s)) p
  /\ (pathway_weeks p = 20 \/ pathway_weeks p = 32 \/ pathway_weeks p = 48).
Proof.
  intros p. unfold p.
  destruct (create_learning_pathway_shape levels r cur) as (m & _ & ->).
  pose proof (pathway_levels_in_range levels cur 7) as Hr.
  pose proof (pathway_levels_sorted levels cur 7) as Hs.
  destruct (spec_pathway_levels levels cur 7) as [|q [|q2 l]] eqn:E.
  - simpl. split; [lia|]. split.
    { repeat constructor; rewrite ?elem_of_cons, ?elem_of_nil; intuition congruence. }
    split; [repeat constructor; simpl; lia|].
    split; [repeat constructor; simpl; lia|]. now left.
  - assert (Hq : cur < level q <= 7) by (apply Hr; now left).
    simpl. split; [lia|]. split.
    { repeat constructor; rewrite ?elem_of_cons, ?elem_of_nil; intuition congruence. }
    split; [repeat constructor; simpl; lia|].
    split; [repeat constructor; simpl; lia|]. right. now left.
  - destruct (last_of_cons q2 l) as (ql & Hql). rewrite Hql.
    assert (Hq : cur < level q <= 7) by (apply Hr; now left).
    assert (Hinl : In ql (q :: q2 :: l)) by (right; now apply In_last_of).
    assert (Hl : cur < level ql <= 7) by (now apply Hr).
    assert (Hql' : level q <= level ql).
    { apply (sorted_head_lowest (q :: q2 :: l)); auto. }
    simpl. split; [lia|]. split.
    { repeat constructor; rewrite ?elem_of_cons, ?elem_of_nil; intuition congruence. }
    split; [repeat constructor; simpl; lia|].
    split; [repeat constructor; simpl; lia|]. right. now right.
Qed.

(** ** What a call can raise, and what it returns *)

Lemma kneighbors_Ok (cosine_distance : list string -> string -> nat -> float)
    (e : engine) (q : string) (k : nat) (ns : list (nat * float)) :
  kneighbors cosine_distance e q k = Ok ns ->
  (k <= length (job_roles e))%nat /\ length ns = k
  /\ Forall (fun n => (fst n < length (job_roles e))%nat) ns.
Proof.
  intros H.
  destruct (Nat.le_gt_cases k (length (job_roles e))) as [Hle|Hgt].
  - destruct (kneighbors_enough cosine_distance e q k Hle) as (ns' & Hns & Hlen & Hall).
    rewrite H in Hns. injection Hns as <-. auto.
  - rewrite kneighbors_too_many in H by assumption. discriminate.
Qed.

Lemma Forall2_length_eq {A B : Type} (R : A -> B -> Prop) (l : list A) (l' : list B) :
  Forall2 R l l' -> length l = length l'.
Proof. induction 1; simpl; congruence. Qed.

(** X4. A returned set has exactly three recommendations, and there is one
    only if the catalog has at least three roles. Each recommendation bears
    the title of a role of the catalog, and its pathway ends with the
    internship in that role. The summary of the profile counts every entry
    found under [prior_skills], blank ones included, and gives the education
    level and the pace of the profile, or 1 and [normal] where the profile
    has none. *)
Theorem X4_returned_set_shape
    (cosine_distance : list string -> string -> nat -> float)
    (e : engine) (p : gmap string value) (rs : recommendation_set) :
  compute_recommendations cosine_distance e p = Ok rs ->
  length (recommendations rs) = 3%nat
  /\ (3 <= length (job_roles e))%nat
  /\ Forall (fun rec =>
               exists r, In r (job_roles e)
                 /\ rec_job_title rec = job_title r
                 /\ exists s, last_of (pathway rec) = Some s
                      /\ step s = "On-the-job/Internship"
                      /\ title s = job_title r +:+ " Internship")
       (recommendations rs)
  /\ (exists l, iter_strings (dict_get p "prior_skills" (VList [])) = Ok l
        /\ skills_count (profile rs) = Z.of_nat (length l))
  /\ education_level (profile rs)
     = match p !! "education_level" with Some v => v | None => VInt 1 end
  /\ learning_pace (profile rs)
     = match p !! "learning_pace" with Some v => v | None => VStr "normal" end.
Proof.
  intros H.
  pose proof (compute_recommendations_Ok _ _ _ _ H)
    as (l & ns & un & Hl & _ & Hns & Hun & Hrs & Hcount).
  apply kneighbors_Ok in Hns as (Hk & Hlen & _).
  split; [|split; [exact Hk|split; [|split; [eauto|]]]].
  - rewrite Hrs. unfold sort_recommendations. rewrite stable_sort_length.
    rewrite <- (Forall2_length_eq _ _ _ Hun). exact Hlen.
  - apply Forall_forall. intros rec Hin. apply list_elem_of_In in Hin.
    destruct (returned_from_neighbor _ _ _ _ _ H Hin)
      as (l' & ns' & idx & d & _ & _ & _ & Hrec).
    apply recommend_one_Ok in Hrec as (r & lvl & m & Hr & _ & _ & Hpw & _ & Ht & _).
    exists r. split; [now apply nth_error_In in Hr|]. split; [exact Ht|].
    apply rmapM_Ok in Hpw.
    destruct (create_learning_pathway_shape (nsqf_levels e) r lvl) as (mc & _ & Hshape).
    rewrite Hshape in Hpw. clear Hshape.
    apply Forall2_app_inv_l in Hpw as (pre & post & _ & Hpost & ->).
    inversion Hpost as [|a b la lb Hmc Hrest]; subst.
    inversion Hrest as [|a' b' la' lb' Hint Hnil]; subst.
    inversion Hnil; subst.
    apply scale_step_Ok in Hint as (_ & Hstep & Htitle & _).
    exists b'. split.
    + unfold last_of. rewrite last_app. reflexivity.
    + split; [exact Hstep | exact Htitle].
  - unfold compute_recommendations in H.
    apply rbind_Ok in H as (l0 & _ & H).
    destruct (_normalize_skills l0); [discriminate|].
    apply rbind_Ok in H as (ns0 & _ & H). apply rbind_Ok in H as (un0 & _ & H).
    injection H as <-. simpl. unfold dict_get. split; reflexivity.
Qed.

(** The catalog and the profile of the tests. *)
Lemma X4_returned_set_shape_witness :
  exists rs,
    compute_recommendations table_distance test_engine sample_profile = Ok rs
    /\ length (recommendations rs) = 3%nat
    /\ skills_count (profile rs) = 3
    /\ education_level (profile rs) = VInt 4.
Proof.
  assert (H : compute_recommendations table_distance test_engine sample_profile
              = Ok {| recommendations := sample_recommendations;
                      profile := {| education_level := VInt 4; skills_count := 3;
                                    learning_pace := VStr "normal" |} |})
    by (vm_compute; reflexivity).
  eexists. split; [exact H|].
  destruct (X4_returned_set_shape table_distance test_engine sample_profile _ H)
    as (Hlen & _ & _ & _ & Hlvl & _).
  split; [exact Hlen|]. split; [reflexivity | exact Hlvl].
Defined.

(** ** Why a call fails *)


(** No step the builder makes fails to scale: its weeks are 8, 12 or 16 and
    the multiplier is one of three. *)
Lemma scale_step_total (m : float) (s : pathway_step) :
  m = 1.3%float \/ m = 1.0%float \/ m = 0.7%float ->
  duration_weeks s = 8 \/ duration_weeks s = 12 \/ duration_weeks s = 16 ->
  exists s', scale_step m s = Ok s'.
Proof.
  unfold scale_step. intros [-> | [-> | ->]] [-> | [-> | ->]];
    eexists; vm_compute; reflexivity.
Qed.

Lemma rmapM_total {A B : Type} (f : A -> result B) (l : list A) :
  Forall (fun a => exists b, f a = Ok b) l -> exists bs, rmapM f l = Ok bs.
Proof.
  induction 1 as [|a l (b & Hb) _ (bs & Hbs)]; simpl; [eauto|].
  rewrite Hb. simpl. rewrite Hbs. simpl. eauto.
Qed.

Lemma scaled_pathway_total (levels : list nsqf_level) (r : job_role) (cur : Z)
    (m : float) :
  m = 1.3%float \/ m = 1.0%float \/ m = 0.7%float ->
  exists pw, rmapM (scale_step m) (_create_learning_pathway levels r cur) = Ok pw.
Proof.
  intros Hm. apply rmapM_total.
  eapply Forall_impl; [apply base_durations|].
  intros s Hs. now apply scale_step_total.
Qed.

(** What makes the loop body raise, for a row of the catalog. *)
Lemma recommend_one_Err (e : engine) (p : gmap string value) (idx : nat) (d : float)
    (x : exn) :
  (idx < length (job_roles e))%nat ->
  recommend_one e p (idx, d) = Err x ->
  as_level (dict_get p "education_level" (VInt 1)) = Err x
  \/ pace_multiplier (dict_get p "learning_pace" (VStr "normal")) = Err x
  \/ PyNum.to_int ((1 - d) * 100)%float = Err x.
Proof.
  intros Hidx H. unfold recommend_one in H.
  apply rbind_Err in H as [H | (r & _ & H)].
  { apply nth_error_Some in Hidx. destruct (nth_error (job_roles e) idx);
      [discriminate | congruence]. }
  apply rbind_Err in H as [H | (lvl & _ & H)]; [auto|].
  apply rbind_Err in H as [H | (m & Hm & H)]; [auto|].
  apply rbind_Err in H as [H | (pw & _ & H)].
  { apply pace_multiplier_cases in Hm.
    destruct (scaled_pathway_total (nsqf_levels e) r lvl m Hm) as (pw & Hpw).
    congruence. }
  apply rbind_Err in H as [H | (ex & _ & H)]; [|discriminate].
  unfold _generate_explanation in H.
  apply rbind_Err in H as [H | (pct & _ & H)]; [auto | discriminate].
Qed.

(** The loop body returns for a row of the catalog once the level is a
    number, the pace can be looked up and the percentage is finite. *)
Lemma recommend_one_total (e : engine) (p : gmap string value) (idx : nat) (d : float)
    (lvl pct : Z) (m : float) :
  (idx < length (job_roles e))%nat ->
  as_level (dict_get p "education_level" (VInt 1)) = Ok lvl ->
  pace_multiplier (dict_get p "learning_pace" (VStr "normal")) = Ok m ->
  PyNum.to_int ((1 - d) * 100)%float = Ok pct ->
  exists rec, recommend_one e p (idx, d) = Ok rec.
Proof.
  intros Hidx Hlvl Hm Hpct.
  destruct (recommend_one e p (idx, d)) as [rec|x] eqn:E; [eauto|].
  apply recommend_one_Err in E as [E | [E | E]]; [congruence.. | exact Hidx].
Qed.

Section Failure.
Variable cosine_distance : list string -> string -> nat -> float.

Lemma compute_recommendations_Err (e : engine) (p : gmap string value) (x : exn) :
  compute_recommendations cosine_distance e p = Err x ->
  iter_strings (dict_get p "prior_skills" (VList [])) = Err x
  \/ (iter_strings (dict_get p "prior_skills" (VList [])) = Ok [] /\ x = no_skills)
  \/ exists l, iter_strings (dict_get p "prior_skills" (VList [])) = Ok l /\ l <> []
     /\ (((length (job_roles e) < 3)%nat /\ x = too_many_neighbors)
         \/ ((3 <= length (job_roles e))%nat
             /\ (as_level (dict_get p "education_level" (VInt 1)) = Err x
                 \/ pace_multiplier (dict_get p "learning_pace" (VStr "normal")) = Err x
                 \/ exists idx, (idx < length (job_roles e))%nat
                      /\ PyNum.to_int
                           ((1 - cosine_distance (skills_data e)
                                   (PyStr.join ", " (_normalize_skills l)) idx) * 100)%float
                         = Err x))).
Proof.
  unfold compute_recommendations. intros H.
  apply rbind_Err in H as [H | (l & Hl & H)]; [auto|]. right.
  destruct l as [|s l].
  { left. split; [exact Hl|]. simpl in H. injection H as <-. reflexivity. }
  right. exists (s :: l). split; [exact Hl|]. split; [discriminate|].
  change (_normalize_skills (s :: l))
    with (PyStr.strip (PyStr.lower s) :: _normalize_skills l) in H at 1.
  cbv iota in H.
  apply rbind_Err in H as [H | (ns & Hns & H)].
  { left. destruct (Nat.le_gt_cases 3 (length (job_roles e))) as [Hle|Hgt].
    - destruct (kneighbors_enough cosine_distance e
                  (PyStr.join ", " (_normalize_skills (s :: l))) 3 Hle) as (ns & Hns & _).
      congruence.
    - split; [exact Hgt|]. rewrite kneighbors_too_many in H by exact Hgt.
      injection H as <-. reflexivity. }
  right. pose proof (kneighbors_Ok _ _ _ _ _ Hns) as (Hk & _ & Hrange).
  split; [exact Hk|].
  apply rbind_Err in H as [H | (un & _ & H)]; [|discriminate].
  apply rmapM_Err in H as ([idx d] & Hin & H).
  pose proof (kneighbors_In _ _ _ _ _ _ _ Hns Hin) as Hd.
  rewrite Forall_forall in Hrange. apply list_elem_of_In in Hin.
  specialize (Hrange _ Hin). simpl in Hrange.
  apply recommend_one_Err in H as [H | [H | H]]; [auto | auto | | exact Hrange].
  right. right. exists idx. subst d. auto.
Qed.
End Failure.



(** ** Profiles of the request schema *)

(** [int()] of a number between zero and a bound: the truncation, which
    does not pass the bound. *)
Lemma to_int_below (U : Z) (x : float) :
  below U x -> exists z, PyNum.to_int x = Ok z /\ 0 <= z /\ z * 2 ^ bias <= U.
Proof.
  unfold below, PyNum.to_int.
  destruct (Prim2SF x) as [s|s| |s m e]; simpl; intros [Hv Hle]; try contradiction.
  - exists 0. split; [reflexivity | lia].
  - destruct s; [contradiction|]. apply bounded_inv in Hv as (He & _).
    exists (Z.shiftl (Z.pos m) e). split; [reflexivity|].
    split; [apply Z.shiftl_nonneg; lia|].
    unfold scaled in Hle. unfold bias in *.
    destruct (Z.le_gt_cases 0 e) as [Hpos|Hneg].
    + rewrite Z.shiftl_mul_pow2 by exact Hpos.
      rewrite (Z.pow_add_r 2 e 2200) in Hle by lia. lia.
    + rewrite Z.shiftl_div_pow2 by lia.
      assert (Hsplit : 2 ^ 2200 = 2 ^ (e + 2200) * 2 ^ (- e)).
      { rewrite <- Z.pow_add_r by lia. f_equal. lia. }
      assert (Hq : Z.pos m / 2 ^ (- e) * 2 ^ (- e) <= Z.pos m).
      { rewrite Z.mul_comm. apply Z.mul_div_le. apply pow2_pos. lia. }
      assert (Hp : 0 < 2 ^ (e + 2200)) by (apply pow2_pos; lia).
      rewrite Hsplit.
      transitivity (Z.pos m / 2 ^ (- e) * 2 ^ (- e) * 2 ^ (e + 2200)); [lia|].
      transitivity (Z.pos m * 2 ^ (e + 2200)); [|exact Hle].
      apply Z.mul_le_mono_nonneg_r; lia.
Qed.

(** The percentage of a similarity [1 - d], for a distance between 0 and 1. *)
Lemma percentage_range (d : float) :
  (0 <=? d)%float = true -> (d <=? 1)%float = true ->
  exists pct, PyNum.to_int ((1 - d) * 100)%float = Ok pct /\ 0 <= pct <= 100.
Proof.
  intros H0 H1.
  destruct const_valid as (V1 & _ & _ & V100 & _).
  destruct const_values as (_ & _ & C100 & _).
  destruct (similarity_range d H0 H1) as [S0 S1].
  pose proof (below_of_leb 1 (1 - d) V1 S0 S1) as Hb.
  pose proof (mul_below (1 - d) 100 100 _ V100 V100 C100 Hb) as Hm.
  destruct (to_int_below _ _ Hm) as (z & Hz & Hz0 & Hzle).
  exists z. split; [exact Hz|]. split; [exact Hz0|].
  assert (H100 : SFval (Prim2SF 100) = 100 * 2 ^ bias) by (vm_compute; reflexivity).
  rewrite H100 in Hzle.
  assert (Hp : 0 < 2 ^ bias) by (apply pow2_pos; unfold bias; lia).
  apply Z.mul_le_mono_pos_r in Hzle; [exact Hzle | exact Hp].
Qed.

Lemma returned_profile (cosine_distance : list string -> string -> nat -> float)
    (e : engine) (p : gmap string value) (rs : recommendation_set) :
  compute_recommendations cosine_distance e p = Ok rs ->
  exists l, iter_strings (dict_get p "prior_skills" (VList [])) = Ok l
    /\ profile rs
       = {| education_level := dict_get p "education_level" (VInt 1);
            skills_count := Z.of_nat (length l);
            learning_pace := dict_get p "learning_pace" (VStr "normal") |}.
Proof.
  unfold compute_recommendations. intros H.
  apply rbind_Ok in H as (l & Hl & H). exists l. split; [exact Hl|].
  pose proof (normalize_skills_length l) as Hlen.
  destruct (_normalize_skills l) as [|s l']; [discriminate|].
  apply rbind_Ok in H as (ns & _ & H). apply rbind_Ok in H as (un & _ & H).
  injection H as <-. simpl. rewrite <- Hlen. reflexivity.
Qed.

(** X6. A profile of the request schema, whose education level is an
    integer, whose skills are a list of strings and whose pace is a string,
    is served by an engine of three roles or more exactly when its list of
    skills is not empty: with an empty list the call raises the validation
    error, otherwise it returns, provided the cosine distances lie between 0
    and 1. The summary it returns gives the profile's level, the number of
    its skills and its pace. *)
Theorem X6_schema_profile_served
    (cosine_distance : list string -> string -> nat -> float)
    (e : engine) (pb : Schema.ProfileBase) :
  (3 <= length (job_roles e))%nat ->
  (forall q i,
     (0 <=? cosine_distance (skills_data e) q i)%float = true
     /\ (cosine_distance (skills_data e) q i <=? 1)%float = true) ->
  (Schema.prior_skills pb = [] ->
     compute_recommendations cosine_distance e (Schema.dict pb) = Err no_skills)
  /\ (Schema.prior_skills pb <> [] ->
      exists rs,
        compute_recommendations cosine_distance e (Schema.dict pb) = Ok rs
        /\ profile rs
           = {| education_level := VInt (Schema.education_level pb);
                skills_count := Z.of_nat (length (Schema.prior_skills pb));
                learning_pace := VStr (Schema.learning_pace pb) |}).
Proof.
  intros Hk Hdist.
  assert (Hskills : iter_strings (dict_get (Schema.dict pb) "prior_skills" (VList []))
                    = Ok (Schema.prior_skills pb)) by reflexivity.
  assert (Hlvl : dict_get (Schema.dict pb) "education_level" (VInt 1)
                 = VInt (Schema.education_level pb)) by reflexivity.
  assert (Hpace : dict_get (Schema.dict pb) "learning_pace" (VStr "normal")
                  = VStr (Schema.learning_pace pb)) by reflexivity.
  split.
  - intros Hnil. apply no_skills_iff. rewrite Hskills, Hnil. reflexivity.
  - intros Hne.
    destruct (compute_recommendations cosine_distance e (Schema.dict pb)) as [rs|x] eqn:E.
    + exists rs. split; [reflexivity|].
      apply returned_profile in E as (l & Hl & ->).
      rewrite Hskills in Hl. injection Hl as <-. rewrite Hlvl, Hpace. reflexivity.
    + exfalso.
      apply compute_recommendations_Err in E
        as [E | [(E & _) | (l & Hl & _ & [(Hlt & _) | (_ & [E | [E | (idx & _ & E)]])])]].
      * rewrite Hskills in E. discriminate.
      * rewrite Hskills in E. congruence.
      * lia.
      * rewrite Hlvl in E. discriminate.
      * rewrite Hpace in E. discriminate.
      * destruct (Hdist (PyStr.join ", " (_normalize_skills l)) idx) as [H0 H1].
        destruct (percentage_range _ H0 H1) as (pct & Hpct & _). congruence.
Qed.

(** The profile of the tests as a profile of the schema, and the same with
    no skill. *)
Lemma X6_schema_profile_served_witness :
  (exists rs,
     compute_recommendations table_distance test_engine
       (Schema.dict {| Schema.education_level := 4;
                       Schema.prior_skills := ["python"; "data analysis"; "statistics"];
                       Schema.aspirations := "I want to become a data scientist";
                       Schema.learning_pace := "normal" |}) = Ok rs
     /\ profile rs = {| education_level := VInt 4; skills_count := 3;
                        learning_pace := VStr "normal" |})
  /\ compute_recommendations table_distance test_engine
       (Schema.dict {| Schema.education_level := 4;
                       Schema.prior_skills := [];
                       Schema.aspirations := "I want to become a data scientist";
                       Schema.learning_pace := "normal" |}) = Err no_skills.
Proof.
  assert (Hk : (3 <= length (job_roles test_engine))%nat) by (simpl; lia).
  assert (Hdist : forall q i,
            (0 <=? table_distance (skills_data test_engine) q i)%float = true
            /\ (table_distance (skills_data test_engine) q i <=? 1)%float = true)
    by (intros q [|[|i]]; split; reflexivity).
  split.
  - apply (proj2 (X6_schema_profile_served table_distance test_engine
                    {| Schema.education_level := 4;
                       Schema.prior_skills := ["python"; "data analysis"; "statistics"];
                       Schema.aspirations := "I want to become a data scientist";
                       Schema.learning_pace := "normal" |} Hk Hdist)).
    discriminate.
  - apply (proj1 (X6_schema_profile_served table_distance test_engine
                    {| Schema.education_level := 4;
                       Schema.prior_skills := [];
                       Schema.aspirations := "I want to become a data scientist";
                       Schema.learning_pace := "normal" |} Hk Hdist)).
    reflexivity.
Defined.

(** ** The explanation *)

Lemma string_append_assoc (a b c : string) : (a +:+ b) +:+ c = a +:+ (b +:+ c).
Proof.
  induction a as [|ch a IH]; [reflexivity|].
  change (String ch ((a +:+ b) +:+ c) = String ch (a +:+ b +:+ c)).
  f_equal. exact IH.
Qed.

(** X7. With cosine distances between 0 and 1, the explanation of every
    returned recommendation is the sentence of the template for a role of
    the catalog with the title of the recommendation: it reports a whole
    percentage between 0 and 100, the truncation of a hundred times the
    similarity, then the demand score of the role, or 50 for a role without
    one, and the skills of the role as the catalog has them. *)
Theorem X7_explanation_percentage
    (cosine_distance : list string -> string -> nat -> float)
    (e : engine) (p : gmap string value) (rs : recommendation_set) :
  (forall q i,
     (0 <=? cosine_distance (skills_data e) q i)%float = true
     /\ (cosine_distance (skills_data e) q i <=? 1)%float = true) ->
  compute_recommendations cosine_distance e p = Ok rs ->
  Forall (fun rec =>
            exists r pct,
              In r (job_roles e)
              /\ rec_job_title rec = job_title r
              /\ 0 <= pct <= 100
              /\ explanation rec
                 = explanation_text r pct (default 50 (demand_score r)))
    (recommendations rs).
Proof.
  intros Hdist H.
  apply Forall_forall. intros rec Hin. apply list_elem_of_In in Hin.
  destruct (returned_from_neighbor _ _ _ _ _ H Hin)
    as (l & ns & idx & d & _ & Hns & Hn & Hrec).
  apply (kneighbors_In _ _ _ _ _ _ _ Hns) in Hn. subst d.
  apply recommend_one_Ok in Hrec as (r & lvl & m & Hr & _ & _ & _ & Hex & Ht & _).
  destruct (Hdist (PyStr.join ", " (_normalize_skills l)) idx) as [H0 H1].
  destruct (percentage_range _ H0 H1) as (pct & Hpct & Hrange).
  exists r, pct. split; [now apply nth_error_In in Hr|]. split; [exact Ht|].
  split; [exact Hrange|].
  unfold _generate_explanation in Hex. rewrite Hpct in Hex. simpl in Hex.
  injection Hex as <-. unfold explanation_text.
  rewrite !string_append_assoc. reflexivity.
Qed.

(** The catalog and the profile of the tests, with rows at the distances
    0.25, 0.5 and 1: the percentages are 75, 50 and 0. *)
Lemma X7_explanation_percentage_witness :
  exists rs,
    compute_recommendations table_distance test_engine sample_profile = Ok rs
    /\ List.map explanation (recommendations rs)
       = [explanation_text data_analyst 75 90;
          explanation_text data_scientist 50 95;
          explanation_text it_support 0 80]
    /\ Forall (fun rec =>
                 exists r pct,
                   In r (job_roles test_engine)
                   /\ rec_job_title rec = job_title r
                   /\ 0 <= pct <= 100
                   /\ explanation rec
                      = explanation_text r pct (default 50 (demand_score r)))
         (recommendations rs).
Proof.
  assert (H : compute_recommendations table_distance test_engine sample_profile
              = Ok {| recommendations := sample_recommendations;
                      profile := {| education_level := VInt 4; skills_count := 3;
                                    learning_pace := VStr "normal" |} |})
    by (vm_compute; reflexivity).
  eexists. split; [exact H|]. split; [vm_compute; reflexivity|].
  apply (X7_explanation_percentage table_distance test_engine sample_profile _).
  - intros q [|[|i]]; split; reflexivity.
  - exact H.
Defined.

(** ** What the ranking depends on *)

Section SortRelated.
Context {A K : Type}.
Variable precedes : K -> K -> bool.
Variable key : A -> K.
Variable R : A -> A -> Prop.
Hypothesis R_key : forall a b, R a b -> key a = key b.

Lemma stable_insert_Forall2 (x x' : A) (l l' : list A) :
  R x x' -> Forall2 R l l' ->
  Forall2 R (stable_insert precedes key x l) (stable_insert precedes key x' l').
Proof.
  intros Hx H. induction H as [|y y' l l' Hy H IH]; simpl.
  - constructor; [exact Hx | constructor].
  - rewrite (R_key _ _ Hx), (R_key _ _ Hy).
    destruct (precedes (key y') (key x')).
    + constructor; [exact Hy | exact IH].
    + constructor; [exact Hx|]. constructor; [exact Hy | exact H].
Qed.

(** Two lists that are related element by element, with equal keys, are
    sorted into lists related element by element. *)
Lemma stable_sort_Forall2 (l l' : list A) :
  Forall2 R l l' ->
  Forall2 R (stable_sort precedes key l) (stable_sort precedes key l').
Proof.
  induction 1 as [|x x' l l' Hx H IH]; simpl; [constructor|].
  now apply stable_insert_Forall2.
Qed.
End SortRelated.

Lemma rmapM_transfer {A B : Type} (f g : A -> result B) (R : B -> B -> Prop)
    (l : list A) (bs : list B) :
  (forall a b, In a l -> f a = Ok b -> exists b', g a = Ok b' /\ R b b') ->
  rmapM f l = Ok bs ->
  exists bs', rmapM g l = Ok bs' /\ Forall2 R bs bs'.
Proof.
  revert bs. induction l as [|a l IH]; simpl; intros bs Hfg H.
  - injection H as <-. exists []. split; [reflexivity | constructor].
  - apply rbind_Ok in H as (b & Hb & H). apply rbind_Ok in H as (bs0 & Hbs & H).
    injection H as <-.
    destruct (Hfg a b (or_introl eq_refl) Hb) as (b' & Hb' & HR).
    destruct (IH bs0) as (bs' & Hbs' & HRs); [intros; eapply Hfg; eauto | exact Hbs|].
    exists (b' :: bs'). rewrite Hb'. simpl. rewrite Hbs'. simpl.
    split; [reflexivity | constructor; assumption].
Qed.

(** The loop body for another profile, whose level is a number and whose
    pace can be looked up: the same role, score and explanation, and the
    pathway of the other level at the other pace. *)
Lemma recommend_one_transfer (e : engine) (p p' : gmap string value)
    (idx : nat) (d : float) (rec : recommendation) (lvl' : Z) (m' : float) :
  recommend_one e p (idx, d) = Ok rec ->
  as_level (dict_get p' "education_level" (VInt 1)) = Ok lvl' ->
  pace_multiplier (dict_get p' "learning_pace" (VStr "normal")) = Ok m' ->
  exists rec' r,
    nth_error (job_roles e) idx = Some r
    /\ recommend_one e p' (idx, d) = Ok rec'
    /\ same_ranking_entry rec rec'
    /\ rmapM (scale_step m') (_create_learning_pathway (nsqf_levels e) r lvl')
       = Ok (pathway rec').
Proof.
  intros H Hlvl' Hm'.
  apply recommend_one_Ok in H as (r & lvl & m & Hr & _ & _ & _ & Hex & Ht & Hs).
  destruct (scaled_pathway_total (nsqf_levels e) r lvl' m'
              (pace_multiplier_cases _ _ Hm')) as (pw' & Hpw').
  exists {| rec_job_title := job_title r;
            match_score :=
              PyNum.round1 (combined_score (1 - d) (default 50 (demand_score r)) * 100);
            pathway := pw';
            explanation := explanation rec |}, r.
  split; [exact Hr|]. split.
  - unfold recommend_one. rewrite Hr. simpl. rewrite Hlvl'. simpl.
    rewrite Hm'. simpl. rewrite Hpw'. simpl. rewrite Hex. reflexivity.
  - split; [|exact Hpw']. unfold same_ranking_entry. simpl. auto.
Qed.

Section Transfer.
Variable cosine_distance : list string -> string -> nat -> float.

(** A returned set carries over to a profile with the same skills once
    every recommendation made for a row does. *)
Lemma compute_recommendations_transfer (e : engine) (p p' : gmap string value)
    (R : recommendation -> recommendation -> Prop) (rs : recommendation_set) :
  p !! "prior_skills" = p' !! "prior_skills" ->
  (forall a b, R a b -> match_score a = match_score b) ->
  (forall n rec, recommend_one e p n = Ok rec ->
     exists rec', recommend_one e p' n = Ok rec' /\ R rec rec') ->
  compute_recommendations cosine_distance e p = Ok rs ->
  exists rs',
    compute_recommendations cosine_distance e p' = Ok rs'
    /\ Forall2 R (recommendations rs) (recommendations rs').
Proof.
  intros Hsk HR Hone H. unfold compute_recommendations in *.
  unfold dict_get in *. rewrite <- Hsk.
  destruct (iter_strings _) as [l|x]; [|discriminate]. simpl in *.
  destruct (_normalize_skills l) as [|s l0]; [discriminate|].
  destruct (kneighbors cosine_distance e _ 3) as [ns|x]; [|discriminate]. simpl in *.
  apply rbind_Ok in H as (un & Hun & H). injection H as <-.
  unfold scored_neighbors in *.
  destruct (rmapM_transfer (recommend_one e p) (recommend_one e p') R ns un)
    as (un' & Hun' & HRs); [intros; eauto | exact Hun|].
  rewrite Hun'. simpl. eexists. split; [reflexivity|]. simpl.
  unfold sort_recommendations. now apply stable_sort_Forall2.
Qed.
End Transfer.

Lemma Forall2_map_eq {A B : Type} (R : A -> A -> Prop) (f : A -> B) (l l' : list A) :
  (forall a b, R a b -> f a = f b) -> Forall2 R l l' -> List.map f l = List.map f l'.
Proof. intros HR. induction 1; simpl; [reflexivity|]. f_equal; auto. Qed.

(** X8. Which roles are recommended, in which order, with which scores and
    which explanations depends on the skills of the profile alone. If the
    call returns for a profile, it returns for every profile with the same
    entry under [prior_skills] whose education level is a number and whose
    pace is not a list, and the two rankings have the same titles, scores
    and explanations, position by position. *)
Theorem X8_ranking_depends_on_skills_only
    (cosine_distance : list string -> string -> nat -> float)
    (e : engine) (p p' : gmap string value) (rs : recommendation_set)
    (lvl' : Z) (m' : float) :
  p !! "prior_skills" = p' !! "prior_skills" ->
  as_level (dict_get p' "education_level" (VInt 1)) = Ok lvl' ->
  pace_multiplier (dict_get p' "learning_pace" (VStr "normal")) = Ok m' ->
  compute_recommendations cosine_distance e p = Ok rs ->
  exists rs',
    compute_recommendations cosine_distance e p' = Ok rs'
    /\ List.map rec_job_title (recommendations rs')
       = List.map rec_job_title (recommendations rs)
    /\ List.map match_score (recommendations rs')
       = List.map match_score (recommendations rs)
    /\ List.map explanation (recommendations rs')
       = List.map explanation (recommendations rs).
Proof.
  intros Hsk Hlvl' Hm' H.
  destruct (compute_recommendations_transfer cosine_distance e p p'
              same_ranking_entry rs Hsk) as (rs' & Hrs' & HR).
  - intros a b (_ & Hs & _). exact Hs.
  - intros [idx d] rec Hrec.
    destruct (recommend_one_transfer e p p' idx d rec lvl' m' Hrec Hlvl' Hm')
      as (rec' & r & _ & Hrec' & Hsame & _).
    eauto.
  - exact H.
  - exists rs'. split; [exact Hrs'|].
    repeat split; symmetry;
      (eapply Forall2_map_eq; [|exact HR]); intros a b (Ht & Hs & Hx); assumption.
Qed.

(** The profile of the tests, and the same learner at level 7 in a hurry. *)
Lemma X8_ranking_depends_on_skills_only_witness :
  exists rs rs',
    compute_recommendations table_distance test_engine sample_profile = Ok rs
    /\ compute_recommendations table_distance test_engine
         (<[ "education_level" := VInt 7 ]> fast_profile) = Ok rs'
    /\ List.map rec_job_title (recommendations rs')
       = List.map rec_job_title (recommendations rs)
    /\ List.map match_score (recommendations rs')
       = List.map match_score (recommendations rs)
    /\ List.map explanation (recommendations rs')
       = List.map explanation (recommendations rs).
Proof.
  assert (H : compute_recommendations table_distance test_engine sample_profile
              = Ok {| recommendations := sample_recommendations;
                      profile := {| education_level := VInt 4; skills_count := 3;
                                    learning_pace := VStr "normal" |} |})
    by (vm_compute; reflexivity).
  assert (Hsk : sample_profile !! "prior_skills"
                = (<[ "education_level" := VInt 7 ]> fast_profile) !! "prior_skills")
    by (vm_compute; reflexivity).
  assert (Hlvl : as_level (dict_get (<[ "education_level" := VInt 7 ]> fast_profile)
                             "education_level" (VInt 1)) = Ok 7)
    by (vm_compute; reflexivity).
  assert (Hm : pace_multiplier (dict_get (<[ "education_level" := VInt 7 ]> fast_profile)
                                  "learning_pace" (VStr "normal")) = Ok 0.7%float)
    by (vm_compute; reflexivity).
  destruct (X8_ranking_depends_on_skills_only table_distance test_engine
              sample_profile (<[ "education_level" := VInt 7 ]> fast_profile)
              _ 7 0.7%float Hsk Hlvl Hm H) as (rs' & Hrs' & Heq).
  eexists. exists rs'. split; [exact H|]. split; [exact Hrs' | exact Heq].
Defined.

(** ** The pace and the total duration *)

Lemma dict_get_insert (p : gmap string value) (k : string) (v d : value) :
  dict_get (<[ k := v ]> p) k d = v.
Proof. unfold dict_get. now rewrite lookup_insert_eq. Qed.

Lemma dict_get_insert_ne (p : gmap string value) (k k' : string) (v d : value) :
  k <> k' -> dict_get (<[ k := v ]> p) k' d = dict_get p k' d.
Proof. intros Hk. unfold dict_get. now rewrite lookup_insert_ne. Qed.

(** The weeks of a step at the three paces. *)
Lemma weeks_ordered (d0 df dn ds : Z) :
  d0 = 8 \/ d0 = 12 \/ d0 = 16 ->
  PyNum.to_int (PyNum.of_int d0 * 0.7)%float = Ok df ->
  PyNum.to_int (PyNum.of_int d0 * 1.0)%float = Ok dn ->
  PyNum.to_int (PyNum.of_int d0 * 1.3)%float = Ok ds ->
  df < dn < ds.
Proof.
  intros [-> | [-> | ->]] Hf Hn Hs; vm_compute in Hf, Hn, Hs;
    injection Hf as <-; injection Hn as <-; injection Hs as <-; lia.
Qed.

Lemma scaled_pathways_shorter (m m' : float) (base pw pw' : list pathway_step) :
  (forall d0 d d', d0 = 8 \/ d0 = 12 \/ d0 = 16 ->
     PyNum.to_int (PyNum.of_int d0 * m)%float = Ok d ->
     PyNum.to_int (PyNum.of_int d0 * m')%float = Ok d' -> d < d') ->
  Forall (fun s => duration_weeks s = 8 \/ duration_weeks s = 12 \/ duration_weeks s = 16)
    base ->
  rmapM (scale_step m) base = Ok pw ->
  rmapM (scale_step m') base = Ok pw' ->
  Forall2 (fun s s' => step s = step s' /\ title s = title s'
                       /\ step_level s = step_level s'
                       /\ duration_weeks s < duration_weeks s') pw pw'.
Proof.
  intros Hlt Hbase H H'. apply rmapM_Ok in H. apply rmapM_Ok in H'.
  revert pw' H'. induction H as [|s0 s base pw Hs H IH]; intros pw' H'.
  - inversion H'. constructor.
  - inversion H' as [|s0' s' base' pw0' Hs' H0']; subst.
    apply Forall_cons_iff in Hbase as [Hd Hbase].
    apply scale_step_Ok in Hs as (Hw & Hst & Ht & _ & _ & Hl).
    apply scale_step_Ok in Hs' as (Hw' & Hst' & Ht' & _ & _ & Hl').
    constructor; [|now apply IH].
    repeat split; try congruence. exact (Hlt _ _ _ Hd Hw Hw').
Qed.

Lemma sum_weeks_shorter (l l' : list pathway_step) :
  Forall2 (fun s s' => step s = step s' /\ title s = title s'
                       /\ step_level s = step_level s'
                       /\ duration_weeks s < duration_weeks s') l l' ->
  fold_right Z.add 0 (List.map duration_weeks l)
  <= fold_right Z.add 0 (List.map duration_weeks l')
  /\ (l <> [] ->
      fold_right Z.add 0 (List.map duration_weeks l)
      < fold_right Z.add 0 (List.map duration_weeks l')).
Proof.
  induction 1 as [|s s' l l' (_ & _ & _ & Hs) _ [IH _]]; simpl.
  - split; [lia | congruence].
  - split; intros; lia.
Qed.

Lemma concat_pathways_shorter (l l' : list recommendation) :
  Forall2 same_but_shorter l l' ->
  Forall2 (fun s s' => step s = step s' /\ title s = title s'
                       /\ step_level s = step_level s'
                       /\ duration_weeks s < duration_weeks s')
    (List.concat (List.map pathway l)) (List.concat (List.map pathway l')).
Proof.
  induction 1 as [|a b l l' (_ & Hab) _ IH]; simpl; [constructor|].
  now apply Forall2_app.
Qed.

Section Pace.
Variable cosine_distance : list string -> string -> nat -> float.

(** A returned set is not empty, and none of its pathways is. *)
Lemma returned_steps_nonempty (e : engine) (p : gmap string value)
    (rs : recommendation_set) :
  compute_recommendations cosine_distance e p = Ok rs ->
  List.concat (List.map pathway (recommendations rs)) <> [].
Proof.
  intros H.
  pose proof (compute_recommendations_Ok _ _ _ _ H)
    as (l & ns & un & _ & _ & Hns & Hun & Hrs & _).
  apply kneighbors_Ok in Hns as (_ & Hlen & _).
  apply Forall2_length_eq in Hun.
  assert (Hlen3 : length (recommendations rs) = 3%nat).
  { rewrite Hrs. unfold sort_recommendations. rewrite stable_sort_length. congruence. }
  destruct (recommendations rs) as [|rec recs] eqn:E; [discriminate|].
  assert (Hin : In rec (recommendations rs)) by (rewrite E; now left).
  destruct (returned_from_neighbor _ _ _ _ _ H Hin)
    as (l' & ns' & idx & d & _ & _ & _ & Hrec).
  apply recommend_one_Ok in Hrec as (r & lvl & m & _ & _ & _ & Hpw & _).
  apply rmapM_length in Hpw.
  destruct (create_learning_pathway_shape (nsqf_levels e) r lvl) as (mc & _ & Hshape).
  rewrite Hshape, length_app in Hpw. simpl in Hpw.
  simpl. destruct (pathway rec); [simpl in Hpw; lia | discriminate].
Qed.

(** From one pace to a slower one: the call returns again, with the same
    ranking and longer steps. *)
Lemma slower_pace (e : engine) (p : gmap string value) (v v' : string) (m m' : float)
    (rs : recommendation_set) :
  pace_multiplier (VStr v) = Ok m -> pace_multiplier (VStr v') = Ok m' ->
  (forall d0 d d', d0 = 8 \/ d0 = 12 \/ d0 = 16 ->
     PyNum.to_int (PyNum.of_int d0 * m)%float = Ok d ->
     PyNum.to_int (PyNum.of_int d0 * m')%float = Ok d' -> d < d') ->
  compute_recommendations cosine_distance e (<[ "learning_pace" := VStr v ]> p) = Ok rs ->
  exists rs',
    compute_recommendations cosine_distance e (<[ "learning_pace" := VStr v' ]> p)
    = Ok rs'
    /\ Forall2 same_but_shorter (recommendations rs) (recommendations rs')
    /\ get_total_duration rs < get_total_duration rs'.
Proof.
  intros Hm Hm' Hlt H.
  destruct (compute_recommendations_transfer cosine_distance e
              (<[ "learning_pace" := VStr v ]> p) (<[ "learning_pace" := VStr v' ]> p)
              same_but_shorter rs) as (rs' & Hrs' & HR).
  - rewrite !lookup_insert_ne by discriminate. reflexivity.
  - intros a b ((_ & Hs & _) & _). exact Hs.
  - intros [idx d] rec Hrec.
    pose proof (recommend_one_Ok _ _ _ _ _ Hrec)
      as (r & lvl & m0 & Hr & Hlvl & Hm0 & Hpw & _).
    rewrite dict_get_insert in Hm0. rewrite Hm in Hm0. injection Hm0 as <-.
    rewrite dict_get_insert_ne in Hlvl by discriminate.
    destruct (recommend_one_transfer e _ (<[ "learning_pace" := VStr v' ]> p)
                idx d rec lvl m' Hrec) as (rec' & r' & Hr' & Hrec' & Hsame & Hpw').
    { rewrite dict_get_insert_ne by discriminate. exact Hlvl. }
    { rewrite dict_get_insert. exact Hm'. }
    rewrite Hr in Hr'. injection Hr' as <-.
    exists rec'. split; [exact Hrec'|]. split; [exact Hsame|].
    exact (scaled_pathways_shorter m m' _ _ _ Hlt (base_durations _ _ _) Hpw Hpw').
  - exact H.
  - exists rs'. split; [exact Hrs'|]. split; [exact HR|].
    unfold get_total_duration.
    apply (sum_weeks_shorter _ _ (concat_pathways_shorter _ _ HR)).
    exact (returned_steps_nonempty _ _ _ H).
Qed.
End Pace.

(** X9. The pace orders the durations. If the call returns for a profile
    at the pace [fast], it returns for the same profile at the paces
    [normal] and [slow], with the same titles, scores and explanations in
    the same order and the same steps in every pathway; every step lasts
    strictly longer at [normal] than at [fast] and at [slow] than at
    [normal], and so does the whole, summed over all steps of all
    recommendations as [test_learning_pace_adjustment] sums it. *)
Theorem X9_pace_ordering
    (cosine_distance : list string -> string -> nat -> float)
    (e : engine) (p : gmap string value) (rf : recommendation_set) :
  compute_recommendations cosine_distance e (<[ "learning_pace" := VStr "fast" ]> p)
  = Ok rf ->
  exists rn rsl,
    compute_recommendations cosine_distance e (<[ "learning_pace" := VStr "normal" ]> p)
    = Ok rn
    /\ compute_recommendations cosine_distance e (<[ "learning_pace" := VStr "slow" ]> p)
       = Ok rsl
    /\ Forall2 same_but_shorter (recommendations rf) (recommendations rn)
    /\ Forall2 same_but_shorter (recommendations rn) (recommendations rsl)
    /\ get_total_duration rf < get_total_duration rn < get_total_duration rsl.
Proof.
  intros Hf.
  destruct (slower_pace cosine_distance e p "fast" "normal" 0.7 1.0 rf
              eq_refl eq_refl) as (rn & Hn & HRn & Htn); [|exact Hf|].
  { intros d0 d d' [-> | [-> | ->]] Hd Hd'; vm_compute in Hd, Hd';
      injection Hd as <-; injection Hd' as <-; lia. }
  destruct (slower_pace cosine_distance e p "normal" "slow" 1.0 1.3 rn
              eq_refl eq_refl) as (rsl & Hs & HRs & Hts); [|exact Hn|].
  { intros d0 d d' [-> | [-> | ->]] Hd Hd'; vm_compute in Hd, Hd';
      injection Hd as <-; injection Hd' as <-; lia. }
  exists rn, rsl. repeat split; assumption.
Qed.

(** The profile of the tests on the catalog of the tests: 116 weeks at the
    pace [fast], 168 at [normal] and 216 at [slow]. *)
Lemma X9_pace_ordering_witness :
  exists rf rn rsl,
    compute_recommendations table_distance test_engine
      (<[ "learning_pace" := VStr "fast" ]> sample_profile) = Ok rf
    /\ compute_recommendations table_distance test_engine
         (<[ "learning_pace" := VStr "normal" ]> sample_profile) = Ok rn
    /\ compute_recommendations table_distance test_engine
         (<[ "learning_pace" := VStr "slow" ]> sample_profile) = Ok rsl
    /\ get_total_duration rf < get_total_duration rn < get_total_duration rsl.
Proof.
  assert (H : compute_recommendations table_distance test_engine
                (<[ "learning_pace" := VStr "fast" ]> sample_profile)
              = Ok {| recommendations := fast_recommendations;
                      profile := {| education_level := VInt 4; skills_count := 3;
                                    learning_pace := VStr "fast" |} |})
    by (vm_compute; reflexivity).
  destruct (X9_pace_ordering table_distance test_engine sample_profile _ H)
    as (rn & rsl & Hn & Hs & _ & _ & Hlt).
  eexists. exists rn, rsl. split; [exact H|]. auto.
Defined.

(** ** The keys of the profile that are read *)

Lemma rmapM_ext {A B : Type} (f g : A -> result B) (l : list A) :
  (forall a, f a = g a) -> rmapM f l = rmapM g l.
Proof. intros Hfg. induction l as [|a l IH]; simpl; [reflexivity|]. now rewrite Hfg, IH. Qed.

(** X10. The call reads three keys of the profile: [prior_skills],
    [education_level] and [learning_pace]. Two profiles that agree on these
    three get the same answer, be it a set of recommendations or an error,
    whatever else they hold: the aspirations of the learner are never
    read. *)
Theorem X10_only_three_keys_read
    (cosine_distance : list string -> string -> nat -> float)
    (e : engine) (p p' : gmap string value) :
  p !! "prior_skills" = p' !! "prior_skills" ->
  p !! "education_level" = p' !! "education_level" ->
  p !! "learning_pace" = p' !! "learning_pace" ->
  compute_recommendations cosine_distance e p
  = compute_recommendations cosine_distance e p'.
Proof.
  intros Hs Hl Hp.
  assert (Hone : forall n, recommend_one e p n = recommend_one e p' n).
  { intros [idx d]. unfold recommend_one, dict_get. rewrite Hl, Hp. reflexivity. }
  unfold compute_recommendations, scored_neighbors, dict_get. rewrite Hs, Hl, Hp.
  destruct (iter_strings _) as [l|x]; [|reflexivity]. simpl.
  destruct (_normalize_skills l) as [|s l0]; [reflexivity|].
  destruct (kneighbors _ _ _ _) as [ns|x]; [|reflexivity]. simpl.
  rewrite (rmapM_ext _ _ ns Hone). reflexivity.
Qed.

(** Two learners of the schema who differ in their aspirations alone. *)
Lemma X10_only_three_keys_read_witness :
  compute_recommendations table_distance test_engine
    (Schema.dict {| Schema.education_level := 4;
                    Schema.prior_skills := ["python"; "data analysis"; "statistics"];
                    Schema.aspirations := "I want to become a data scientist";
                    Schema.learning_pace := "normal" |})
  = compute_recommendations table_distance test_engine
      (Schema.dict {| Schema.education_level := 4;
                      Schema.prior_skills := ["python"; "data analysis"; "statistics"];
                      Schema.aspirations := "I want to work in IT support";
                      Schema.learning_pace := "normal" |}).
Proof.
  apply (X10_only_three_keys_read table_distance test_engine); reflexivity.
Defined.

(** ** The list of microcredentials of a row *)

Lemma split_no_sep (sep : ascii) (s : string) :
  contains_char sep s = false -> PyStr.split sep s = [s].
Proof.
  induction s as [|c s IH]; simpl; [reflexivity|]. intros H.
  apply orb_false_elim in H as [Hc Hs]. rewrite Hc, (IH Hs). reflexivity.
Qed.

Lemma split_app_sep (sep : ascii) (a b : string) :
  contains_char sep a = false ->
  PyStr.split sep (a +:+ String sep b) = a :: PyStr.split sep b.
Proof.
  induction a as [|c a IH]; intros H.
  - change (PyStr.split sep (String sep b) = "" :: PyStr.split sep b).
    simpl. now rewrite Ascii.eqb_refl.
  - simpl in H. apply orb_false_elim in H as [Hc Ha].
    change (PyStr.split sep (String c (a +:+ String sep b))
            = String c a :: PyStr.split sep b).
    simpl. rewrite Hc, (IH Ha). reflexivity.
Qed.

(** Splitting at the commas a list that was joined with a comma and a
    space: the entries, each but the first after a space. *)
Lemma split_join (n : string) (ns : list string) :
  Forall (fun s => contains_char "," s = false) (n :: ns) ->
  PyStr.split "," (PyStr.join ", " (n :: ns)) = n :: List.map (String " ") ns.
Proof.
  revert n. induction ns as [|n' ns IH]; intros n H.
  - apply Forall_cons_iff in H as [Hn _]. simpl. now apply split_no_sep.
  - apply Forall_cons_iff in H as [Hn H].
    change (PyStr.join ", " (n :: n' :: ns))
      with (n +:+ String "," (String " " (PyStr.join ", " (n' :: ns)))).
    rewrite split_app_sep by exact Hn.
    change (PyStr.split "," (String " " (PyStr.join ", " (n' :: ns))))
      with (match PyStr.split "," (PyStr.join ", " (n' :: ns)) with
            | h :: t => String " " h :: t
            | [] => [String " " EmptyString]
            end).
    rewrite (IH n' H). reflexivity.
Qed.

Lemma strip_after_space (s : string) : PyStr.strip (String " " s) = PyStr.strip s.
Proof. reflexivity. Qed.

(** X11. A row whose [suggested_microcredentials] is a list of names
    joined with a comma and a space, none of them holding a comma, is read
    back as this list, each name stripped. The Micro-credential step of its
    pathway bears the first name of the list, whatever the levels and the
    learner. *)
Theorem X11_microcredentials_read_back
    (levels : list nsqf_level) (r : job_role) (cur : Z)
    (n : string) (ns : list string) :
  suggested_microcredentials r = PyStr.join ", " (n :: ns) ->
  Forall (fun s => contains_char "," s = false) (n :: ns) ->
  microcredentials_of r = List.map PyStr.strip (n :: ns)
  /\ find_step "Micro-credential" (_create_learning_pathway levels r cur)
     = Some (microcredential_step (PyStr.strip n) 7).
Proof.
  intros Htext Hnames.
  assert (Hmc : microcredentials_of r = List.map PyStr.strip (n :: ns)).
  { unfold microcredentials_of. rewrite Htext, (split_join n ns Hnames). simpl.
    f_equal. rewrite List.map_map. apply List.map_ext. intros s.
    apply strip_after_space. }
  split; [exact Hmc|].
  destruct (create_learning_pathway_shape levels r cur) as (m & Hm & ->).
  rewrite Hmc in Hm. injection Hm as <-.
  unfold find_step.
  destruct (spec_pathway_levels levels cur 7) as [|q [|q' l]]; try reflexivity.
  destruct (last_of (q' :: l)); reflexivity.
Qed.

(** The Data Analyst of the tests, whose two microcredentials are stored
    as one text. *)
Lemma X11_microcredentials_read_back_witness :
  microcredentials_of data_analyst
  = ["Data Analysis with Python"; "SQL for Data Science"]
  /\ find_step "Micro-credential" (_create_learning_pathway test_levels data_analyst 4)
     = Some (microcredential_step "Data Analysis with Python" 7).
Proof.
  apply (X11_microcredentials_read_back test_levels data_analyst 4
           "Data Analysis with Python" ["SQL for Data Science"]).
  - reflexivity.
  - repeat constructor.
Defined.

(** ** The function of the module *)


(** ** The overlap of two lists of skills *)

(** X13. [_calculate_skill_overlap] never takes its branch for a role
    without skills: splitting a text yields at least one entry. It divides
    the number of distinct normalized skills of the role that occur, as
    written, among the skills of the learner by the number of distinct
    normalized skills of the role, which is at least one; the skills of the
    role are normalized as [_normalize_skills] normalizes a list. The
    order and the repetitions of the learner's skills do not matter; a
    learner who has every skill of the role gets the quotient of the count
    by itself, and one who has none gets the quotient of zero. *)
Theorem X13_skill_overlap (user_skills : list string) (job_skills : string) :
  let job_skill_set : gset string :=
    list_to_set (_normalize_skills (PyStr.split "," job_skills)) in
  let user_skill_set : gset string := list_to_set user_skills in
  job_skill_set <> ∅
  /\ (1 <= size job_skill_set)%nat
  /\ (size (user_skill_set ∩ job_skill_set) <= size job_skill_set)%nat
  /\ _calculate_skill_overlap user_skills job_skills
     = PyNum.true_div (Z.of_nat (size (user_skill_set ∩ job_skill_set)))
         (Z.of_nat (size job_skill_set))
  /\ (forall user_skills',
        (forall s, In s user_skills <-> In s user_skills') ->
        _calculate_skill_overlap user_skills' job_skills
        = _calculate_skill_overlap user_skills job_skills)
  /\ (Forall (fun s => In s user_skills) (_normalize_skills (PyStr.split "," job_skills)) ->
      _calculate_skill_overlap user_skills job_skills
      = PyNum.true_div (Z.of_nat (size job_skill_set)) (Z.of_nat (size job_skill_set)))
  /\ (Forall (fun s => ~ In s (_normalize_skills (PyStr.split "," job_skills)))
        user_skills ->
      _calculate_skill_overlap user_skills job_skills
      = PyNum.true_div 0 (Z.of_nat (size job_skill_set))).
Proof.
  cbv zeta.
  assert (Hjob : List.map (fun skill => PyStr.lower (PyStr.strip skill))
                   (PyStr.split "," job_skills)
                 = _normalize_skills (PyStr.split "," job_skills)).
  { unfold _normalize_skills. apply List.map_ext. intros s. apply lower_strip. }
  assert (Hne : (list_to_set (_normalize_skills (PyStr.split "," job_skills))
                 : gset string) <> ∅).
  { pose proof (split_nonempty "," job_skills) as Hs.
    destruct (PyStr.split "," job_skills) as [|s l]; [congruence|].
    simpl. intros Hempty.
    apply (not_elem_of_empty (C := gset string) (PyStr.strip (PyStr.lower s))).
    rewrite <- Hempty. apply elem_of_union_l. now apply elem_of_singleton. }
  assert (Hval : forall u,
            _calculate_skill_overlap u job_skills
            = PyNum.true_div
                (Z.of_nat (size ((list_to_set u : gset string)
                                 ∩ list_to_set (_normalize_skills
                                                  (PyStr.split "," job_skills)))))
                (Z.of_nat (size (list_to_set (_normalize_skills
                                                (PyStr.split "," job_skills))
                                 : gset string)))).
  { intros u. unfold _calculate_skill_overlap. cbv zeta. rewrite Hjob.
    rewrite bool_decide_eq_false_2 by exact Hne. reflexivity. }
  split; [exact Hne|].
  split.
  { destruct (size (list_to_set (_normalize_skills (PyStr.split "," job_skills))
                    : gset string)) eqn:E; [|lia].
    apply size_empty_iff in E. exfalso. apply Hne. now apply leibniz_equiv. }
  split; [apply subseteq_size, intersection_subseteq_r|].
  split; [apply Hval|].
  split.
  { intros u' Hsame. rewrite !Hval.
    assert (Hset : (list_to_set u' : gset string) = list_to_set user_skills).
    { apply set_eq. intros s. rewrite !elem_of_list_to_set, !list_elem_of_In.
      symmetry. apply Hsame. }
    now rewrite Hset. }
  split.
  - intros Hall. rewrite Hval.
    assert (Hset : (list_to_set user_skills : gset string)
                   ∩ list_to_set (_normalize_skills (PyStr.split "," job_skills))
                   = list_to_set (_normalize_skills (PyStr.split "," job_skills))).
    { apply set_eq. intros s.
      rewrite elem_of_intersection, !elem_of_list_to_set.
      split; [tauto|]. intros Hs. split; [|exact Hs].
      rewrite Forall_forall in Hall. apply list_elem_of_In. apply Hall. exact Hs. }
    now rewrite Hset.
  - intros Hnone. rewrite Hval.
    assert (Hset : (list_to_set user_skills : gset string)
                   ∩ list_to_set (_normalize_skills (PyStr.split "," job_skills))
                   = ∅).
    { apply set_eq. intros s.
      rewrite elem_of_intersection, !elem_of_list_to_set.
      split; [|intros Hs; now apply not_elem_of_empty in Hs]. intros [Hu Hj].
      rewrite Forall_forall in Hnone. exfalso.
      apply (Hnone s Hu). now apply list_elem_of_In. }
    rewrite Hset, size_empty. reflexivity.
Qed.

(** ** The pathway and the level of the learner *)

Lemma filter_length_le {A : Type} (P Q : A -> bool) (l : list A) :
  (forall x, P x = true -> Q x = true) ->
  (length (List.filter P l) <= length (List.filter Q l))%nat.
Proof.
  intros H. induction l as [|x l IH]; simpl; [lia|].
  destruct (P x) eqn:EP.
  - rewrite (H x EP). simpl. lia.
  - destruct (Q x); simpl; lia.
Qed.

(** The steps and the weeks of a pathway, by the number of rows in range. *)
Lemma pathway_by_count (levels : list nsqf_level) (r : job_role) (cur : Z) :
  let n := length (spec_pathway_levels levels cur 7) in
  length (_create_learning_pathway levels r cur) = (Nat.min n 2 + 2)%nat
  /\ pathway_weeks (_create_learning_pathway levels r cur)
     = 20 + (if (1 <=? n)%nat then 12 else 0) + (if (2 <=? n)%nat then 16 else 0).
Proof.
  destruct (create_learning_pathway_shape levels r cur) as (m & _ & ->).
  destruct (spec_pathway_levels levels cur 7) as [|q [|q' l]]; [split; reflexivity..|].
  destruct (last_of (q' :: l)) as [ql|] eqn:E; [split; [simpl; lia | reflexivity]|].
  destruct (last_of_cons q' l) as (y & Hy). congruence.
Qed.

(** X14. A learner at a higher level never gets a longer pathway: from one
    current level to a higher one, for the same table and role, the pathway
    loses steps or keeps them, and its weeks before scaling do not grow.
    From level 7 on it is down to the two steps of 20 weeks. *)
Theorem X14_higher_level_shorter_pathway
    (levels : list nsqf_level) (r : job_role) (cur cur' : Z) :
  cur <= cur' ->
  (length (_create_learning_pathway levels r cur')
   <= length (_create_learning_pathway levels r cur))%nat
  /\ pathway_weeks (_create_learning_pathway levels r cur')
     <= pathway_weeks (_create_learning_pathway levels r cur)
  /\ (7 <= cur' ->
      length (_create_learning_pathway levels r cur') = 2%nat
      /\ pathway_weeks (_create_learning_pathway levels r cur') = 20).
Proof.
  intros Hle.
  destruct (pathway_by_count levels r cur) as [Hlen Hw].
  destruct (pathway_by_count levels r cur') as [Hlen' Hw'].
  assert (Hn : (length (spec_pathway_levels levels cur' 7)
                <= length (spec_pathway_levels levels cur 7))%nat).
  { unfold spec_pathway_levels. rewrite !stable_sort_length.
    apply filter_length_le. intros q Hq.
    apply andb_prop in Hq as [H1 H2]. apply Z.ltb_lt in H1.
    apply andb_true_intro. split; [apply Z.ltb_lt; lia | exact H2]. }
  rewrite Hlen, Hlen', Hw, Hw'.
  split; [lia|]. split.
  - destruct (length (spec_pathway_levels levels cur' 7)) as [|[|n']];
      destruct (length (spec_pathway_levels levels cur 7)) as [|[|n]];
      simpl; lia.
  - intros H7.
    assert (H0 : spec_pathway_levels levels cur' 7 = []).
    { destruct (spec_pathway_levels levels cur' 7) as [|q l] eqn:E; [reflexivity|].
      assert (Hin : In q (spec_pathway_levels levels cur' 7)) by (rewrite E; now left).
      apply pathway_levels_in_range in Hin as [_ Hr]. lia. }
    rewrite H0. split; reflexivity.
Qed.

(** The table of the tests: 48 weeks from level 4, 32 from level 5, 20 from
    level 7. *)
Lemma X14_higher_level_shorter_pathway_witness :
  pathway_weeks (_create_learning_pathway test_levels data_analyst 4) = 48
  /\ pathway_weeks (_create_learning_pathway test_levels data_analyst 5) = 32
  /\ pathway_weeks (_create_learning_pathway test_levels data_analyst 5)
     <= pathway_weeks (_create_learning_pathway test_levels data_analyst 4)
  /\ pathway_weeks (_create_learning_pathway test_levels data_analyst 7) = 20.
Proof.
  split; [reflexivity|]. split; [reflexivity|]. split.
  - apply (X14_higher_level_shorter_pathway test_levels data_analyst 4 5). lia.
  - apply (X14_higher_level_shorter_pathway test_levels data_analyst 4 7); lia.
Defined.

(** ** What the pathways of one answer share *)

Lemma rmapM_app_inv {A B : Type} (f : A -> result B) (a b : list A) (l : list B) :
  rmapM f (a ++ b) = Ok l ->
  exists la lb, rmapM f a = Ok la /\ rmapM f b = Ok lb /\ l = la ++ lb.
Proof.
  revert l. induction a as [|x a IH]; simpl; intros l H.
  - exists [], l. auto.
  - apply rbind_Ok in H as (y & Hy & H). apply rbind_Ok in H as (l' & Hl' & H).
    injection H as <-. destruct (IH l' Hl') as (la & lb & Hla & Hlb & ->).
    exists (y :: la), lb. rewrite Hy. simpl. rewrite Hla. simpl. auto.
Qed.

(** X15. The pathways of one returned set differ in their last two steps
    only: every one is the same list of at most two steps, the Foundational
    and Core steps of the learner, followed by the Micro-credential step and
    the internship of the recommended role. *)
Theorem X15_pathways_share_first_steps
    (cosine_distance : list string -> string -> nat -> float)
    (e : engine) (p : gmap string value) (rs : recommendation_set) :
  compute_recommendations cosine_distance e p = Ok rs ->
  exists pre,
    (length pre <= 2)%nat
    /\ Forall (fun s => step s = "Foundational" \/ step s = "Core") pre
    /\ Forall (fun rec =>
                 exists mc it,
                   pathway rec = pre ++ [mc; it]
                   /\ step mc = "Micro-credential"
                   /\ step it = "On-the-job/Internship"
                   /\ title it = rec_job_title rec +:+ " Internship")
         (recommendations rs).
Proof.
  intros H.
  assert (Hall : forall rec, In rec (recommendations rs) ->
            exists lvl m pre mc it,
              as_level (dict_get p "education_level" (VInt 1)) = Ok lvl
              /\ pace_multiplier (dict_get p "learning_pace" (VStr "normal")) = Ok m
              /\ rmapM (scale_step m)
                   match spec_pathway_levels (nsqf_levels e) lvl 7 with
                   | [] => []
                   | [q] => [foundational_step q]
                   | q :: l =>
                       match last_of l with
                       | Some ql => [foundational_step q; core_step ql]
                       | None => [foundational_step q]
                       end
                   end = Ok pre
              /\ pathway rec = pre ++ [mc; it]
              /\ step mc = "Micro-credential"
              /\ step it = "On-the-job/Internship"
              /\ title it = rec_job_title rec +:+ " Internship").
  { intros rec Hin.
    destruct (returned_from_neighbor _ _ _ _ _ H Hin)
      as (l & ns & idx & d & _ & _ & _ & Hrec).
    apply recommend_one_Ok in Hrec as (r & lvl & m & _ & Hlvl & Hm & Hpw & _ & Ht & _).
    destruct (create_learning_pathway_shape (nsqf_levels e) r lvl) as (c & _ & Hshape).
    rewrite Hshape in Hpw.
    apply rmapM_app_inv in Hpw as (pre & post & Hpre & Hpost & Heq).
    simpl in Hpost.
    apply rbind_Ok in Hpost as (mc & Hmc & Hpost).
    apply rbind_Ok in Hpost as (rest & Hrest & Hpost). injection Hpost as <-.
    apply rbind_Ok in Hrest as (it & Hit & Hrest). injection Hrest as <-.
    apply scale_step_Ok in Hmc as (_ & Hmc & _).
    apply scale_step_Ok in Hit as (_ & Hit & Hti & _).
    exists lvl, m, pre, mc, it. rewrite Ht. auto 10. }
  destruct (recommendations rs) as [|rec0 recs] eqn:E.
  { exists []. split; [simpl; lia|]. split; constructor. }
  destruct (Hall rec0 (or_introl eq_refl))
    as (lvl & m & pre & mc0 & it0 & Hlvl & Hm & Hpre & _).
  exists pre. split; [|split].
  - apply rmapM_length in Hpre. rewrite Hpre.
    destruct (spec_pathway_levels (nsqf_levels e) lvl 7) as [|q [|q' l]];
      [simpl; lia..|].
    destruct (last_of (q' :: l)); simpl; lia.
  - apply rmapM_Ok in Hpre. clear -Hpre.
    assert (Hbase : Forall (fun s => step s = "Foundational" \/ step s = "Core")
                      match spec_pathway_levels (nsqf_levels e) lvl 7 with
                      | [] => []
                      | [q] => [foundational_step q]
                      | q :: l =>
                          match last_of l with
                          | Some ql => [foundational_step q; core_step ql]
                          | None => [foundational_step q]
                          end
                      end).
    { destruct (spec_pathway_levels (nsqf_levels e) lvl 7) as [|q [|q' l]];
        [constructor | constructor; [now left | constructor]|].
      destruct (last_of (q' :: l));
        repeat (first [apply List.Forall_nil | apply List.Forall_cons]); auto. }
    induction Hpre as [|s0 s l0 l1 Hs Hpre IH]; [constructor|].
    apply Forall_cons_iff in Hbase as [H0 Hbase].
    constructor; [|exact (IH Hbase)].
    apply scale_step_Ok in Hs as (_ & -> & _). exact H0.
  - apply Forall_forall. intros rec Hin. apply list_elem_of_In in Hin.
    destruct (Hall rec Hin)
      as (lvl' & m' & pre' & mc & it & Hlvl' & Hm' & Hpre' & Hpw & Hmc & Hit & Hti).
    rewrite Hlvl in Hlvl'. injection Hlvl' as <-.
    rewrite Hm in Hm'. injection Hm' as <-.
    rewrite Hpre in Hpre'. injection Hpre' as <-.
    exists mc, it. auto.
Qed.

(** The catalog and the profile of the tests: the first two steps of the
    three pathways are the qualifications of levels 5 and 6. *)
Lemma X15_pathways_share_first_steps_witness :
  exists rs pre,
    compute_recommendations table_distance test_engine sample_profile = Ok rs
    /\ (length pre <= 2)%nat
    /\ Forall (fun rec =>
                 exists mc it,
                   pathway rec = pre ++ [mc; it]
                   /\ step mc = "Micro-credential"
                   /\ step it = "On-the-job/Internship"
                   /\ title it = rec_job_title rec +:+ " Internship")
         (recommendations rs).
Proof.
  assert (H : compute_recommendations table_distance test_engine sample_profile
              = Ok {| recommendations := sample_recommendations;
                      profile := {| education_level := VInt 4; skills_count := 3;
                                    learning_pace := VStr "normal" |} |})
    by (vm_compute; reflexivity).
  destruct (X15_pathways_share_first_steps table_distance test_engine sample_profile _ H)
    as (pre & Hlen & _ & Hall).
  eexists. exists pre. split; [exact H|]. split; [exact Hlen | exact Hall].
Defined.
